(** * USB descriptor assembly of libhal: interface and configuration descriptors

    A shallow embedding of the experimental USB descriptor classes
    ([usb_interface], [usb_interface::interface_settings], [pack_u16_le],
    [usb_configuration]) together with the properties of their packed
    9-byte headers.

    Conventions.
    - [u8]/[byte] and [u16]/[size_t] values are integers in [Z]; every
      narrowing conversion the C++ performs is written out ([to_u8],
      [to_u16]).
    - [std::array<byte, 9>] is a vector [vec Z 9]; a member array that the
      constructor does not initialise starts from an arbitrary vector, passed
      to the constructor as [uninit].
    - [safe_throw] is an error result; methods of [usb_interface] run in a
      small state-and-exception monad over the object and the control
      endpoint it refers to, so that the state left behind by a throwing call
      can be inspected.
    - a [callback<void(std::span<byte const>)>] is a function from the bytes
      of the span to a transformer of the sink's state. *)

From stdpp Require Import base list vector numbers.

Open Scope Z_scope.

(** ** Machine integers and byte views *)

Definition to_u8 (x : Z) : Z := x mod 256.
Definition to_u16 (x : Z) : Z := x mod 65536.

Definition is_u8 (x : Z) : Prop := 0 <= x < 256.
Definition is_u16 (x : Z) : Prop := 0 <= x < 65536.

(** The bytes seen through a [std::span<byte const>]. *)
Definition span : Type := list Z.

(** A dispatch callback acting on a sink of type [S]. *)
Definition callback (S : Type) : Type := span -> S -> S.

(** Number of bytes in a sequence of pushed spans. *)
Definition pushed_bytes (l : list span) : Z := Z.of_nat (length (concat l)).

(** The sink that records every span it is handed, in invocation order. *)
Definition record_push : callback (list span) := fun sp log => log ++ [sp].

(** ** Enumerations (data_structures.hpp) *)

Inductive usb_class_code : Set :=
| USE_INTERFACE_DESCRIPTOR
| AUDIO
| CDC_CONTROL
| HID
| PHYSICAL
| IMAGE
| PRINTER
| MASS_STORAGE
| HUB
| CDC_DATA
| SMART_CARD
| CONTENT_SECURITY
| VIDEO
| PERSONAL_HEALTHCARE
| AUDIO_VIDEO
| BILLBOARD
| USB_C_BRIDGE
| BULK_DISPLAY
| MCTP
| I3C
| DIAGNOSTIC
| WIRELESS_CONTROLLER
| MISC
| APPLICATION_SPECIFIC
| VENDOR_SPECIFIC.

#[global] Instance usb_class_code_eq_dec : EqDecision usb_class_code.
Proof. solve_decision. Defined.

(** [static_cast<u8>] of a class code. *)
Definition class_code_u8 (c : usb_class_code) : Z :=
  match c with
  | USE_INTERFACE_DESCRIPTOR => 0x00
  | AUDIO => 0x01
  | CDC_CONTROL => 0x02
  | HID => 0x03
  | PHYSICAL => 0x05
  | IMAGE => 0x06
  | PRINTER => 0x07
  | MASS_STORAGE => 0x08
  | HUB => 0x09
  | CDC_DATA => 0x0A
  | SMART_CARD => 0x0B
  | CONTENT_SECURITY => 0x0D
  | VIDEO => 0x0E
  | PERSONAL_HEALTHCARE => 0x0F
  | AUDIO_VIDEO => 0x10
  | BILLBOARD => 0x11
  | USB_C_BRIDGE => 0x12
  | BULK_DISPLAY => 0x13
  | MCTP => 0x14
  | I3C => 0x3C
  | DIAGNOSTIC => 0xDC
  | WIRELESS_CONTROLLER => 0xE0
  | MISC => 0xEF
  | APPLICATION_SPECIFIC => 0xFE
  | VENDOR_SPECIFIC => 0xFF
  end.

Inductive descriptor_type : Set :=
| DEVICE
| CONFIGURATION
| STRING
| INTERFACE
| ENDPOINT
| DEVICE_QUALIFIER
| OTHER_SPEED_CONFIGURATION
| INTERFACE_POWER
| OTG
| DEBUG
| INTERFACE_ASSOCIATION
| SECURITY
| KEY
| ENCRYPTION_TYPE
| BOS
| DEVICE_CAPABILITY
| WIRELESS_ENDPOINT_COMPANION
| SUPERSPEED_ENDPOINT_COMPANION
| SUPERSPEED_ENDPOINT_ISOCHRONOUS_COMPANION.

(** [static_cast<u8>] of a descriptor type. *)
Definition descriptor_type_u8 (d : descriptor_type) : Z :=
  match d with
  | DEVICE => 0x1
  | CONFIGURATION => 0x2
  | STRING => 0x3
  | INTERFACE => 0x4
  | ENDPOINT => 0x5
  | DEVICE_QUALIFIER => 0x6
  | OTHER_SPEED_CONFIGURATION => 0x7
  | INTERFACE_POWER => 0x8
  | OTG => 0x9
  | DEBUG => 0xA
  | INTERFACE_ASSOCIATION => 0xB
  | SECURITY => 0xC
  | KEY => 0xD
  | ENCRYPTION_TYPE => 0xE
  | BOS => 0xF
  | DEVICE_CAPABILITY => 0x10
  | WIRELESS_ENDPOINT_COMPANION => 0x11
  | SUPERSPEED_ENDPOINT_COMPANION => 0x30
  | SUPERSPEED_ENDPOINT_ISOCHRONOUS_COMPANION => 0x31
  end.

(** ** Errors *)

Inductive exception : Set :=
| argument_out_of_domain.

Inductive result (A : Type) : Type :=
| Ok (a : A)
| Throw (e : exception).

Arguments Ok {A} a.
Arguments Throw {A} e.

(** ** The control endpoint *)

(** Modelled from the spec: the class [usb_control_endpoint] is declared in
    endpoints.hpp, which is not part of the sources at hand. The spec
    describes it as a capability exposing raw write of byte sequences; its
    state here is the sequence of buffers written through it so far. *)
Record usb_control_endpoint : Type := {
  ep_written : list span
}.

(** ** [pack_u16_le] *)

Definition pack_u16_le (p_dat : Z) : vec Z 2 :=
  [# to_u8 (Z.land p_dat 0xFF);
     to_u8 (Z.shiftr (Z.land p_dat (Z.shiftl 0xFF 8)) 8) ].

(** Little-endian reading of a packed pair. *)
Definition unpack_u16_le (b : vec Z 2) : Z := b !!! 0%fin + 256 * b !!! 1%fin.

(** ** [usb_interface] *)

Module usb_interface.

Record interface_settings : Type := {
  m_num_endpoints : Z;
  m_class : usb_class_code;
  m_subclass : Z;
  m_protocol : Z;
  m_str_name_idx : Z
}.

(** The constructor of [interface_settings]: the three class codes that
    an interface may not declare make it throw. *)
Definition interface_settings_ctor
    (p_num_endpoints : Z) (p_class : usb_class_code)
    (p_subclass p_protocol p_str_name_idx : Z) : result interface_settings :=
  if bool_decide (p_class = USE_INTERFACE_DESCRIPTOR)
     || bool_decide (p_class = HUB)
     || bool_decide (p_class = BILLBOARD)
  then Throw argument_out_of_domain
  else Ok {| m_num_endpoints := p_num_endpoints;
             m_class := p_class;
             m_subclass := p_subclass;
             m_protocol := p_protocol;
             m_str_name_idx := p_str_name_idx |}.

(** The data members of the base class. The reference member
    [m_ctrl_endpoint] is represented by its referent, which lives next to
    the object in [state]. *)
Record t : Type := {
  m_packed_data : vec Z 9;
  m_settings : list (Z * interface_settings);
  m_selected_setting_number : Z
}.

Record state : Type := {
  self : t;
  ctrl_endpoint : usb_control_endpoint
}.

(** State-and-exception monad of the member functions: a call returns a
    value or throws, and leaves a state behind in both cases. *)
Definition M (A : Type) : Type := state -> result A * state.

Definition ret {A} (a : A) : M A := fun st => (Ok a, st).

Definition bind {A B} (m : M A) (f : A -> M B) : M B :=
  fun st =>
    match m st with
    | (Ok a, st') => f a st'
    | (Throw e, st') => (Throw e, st')
    end.

Definition safe_throw {A} (e : exception) : M A := fun st => (Throw e, st).

Notation "x <- m ;; k" := (bind m (fun x => k))
  (at level 100, m at next level, right associativity).
Notation "m ;;; k" := (bind m (fun _ => k))
  (at level 100, right associativity).

(** [m_packed_data[i] = v] *)
Definition store_packed (i : fin 9) (v : Z) : M unit :=
  fun st =>
    (Ok tt,
     {| self := {| m_packed_data := vinsert i v (m_packed_data (self st));
                   m_settings := m_settings (self st);
                   m_selected_setting_number :=
                     m_selected_setting_number (self st) |};
        ctrl_endpoint := ctrl_endpoint st |}).

(** [m_selected_setting_number = v] *)
Definition store_selected (v : Z) : M unit :=
  fun st =>
    (Ok tt,
     {| self := {| m_packed_data := m_packed_data (self st);
                   m_settings := m_settings (self st);
                   m_selected_setting_number := v |};
        ctrl_endpoint := ctrl_endpoint st |}).

(** The range-for loop of [get_interface_setting]: the first pair whose
    key equals [p_number]. *)
Fixpoint find_setting (l : list (Z * interface_settings)) (p_number : Z)
    : option interface_settings :=
  match l with
  | [] => None
  | p :: l' => if p.1 =? p_number then Some p.2 else find_setting l' p_number
  end.

Definition get_interface_setting (p_number : Z) : M interface_settings :=
  fun st =>
    match find_setting (m_settings (self st)) p_number with
    | Some s => ret s st
    | None => safe_throw argument_out_of_domain st
    end.

Definition set_setting (p_number : Z) : M unit :=
  iface_setting <- get_interface_setting p_number ;;
  store_packed 4%fin (m_num_endpoints iface_setting) ;;;
  store_packed 5%fin (class_code_u8 (m_class iface_setting)) ;;;
  store_packed 6%fin (m_subclass iface_setting) ;;;
  store_packed 7%fin (m_protocol iface_setting) ;;;
  store_packed 8%fin (m_str_name_idx iface_setting) ;;;
  store_selected p_number.

Definition get_interface_number (i : t) : Z := m_packed_data i !!! 2%fin.

Definition get_selected_setting_number (i : t) : Z :=
  m_selected_setting_number i.

(** Modelled from the spec: [ctrl_write] is declared in the class but its
    definition is not part of the sources at hand; the spec says it
    delegates the raw byte transfer to the associated control endpoint. *)
Definition ctrl_write (p_buffer : span) : M unit :=
  fun st =>
    (Ok tt,
     {| self := self st;
        ctrl_endpoint :=
          {| ep_written := ep_written (ctrl_endpoint st) ++ [p_buffer] |} |}).

(** The body of the constructor, run on the freshly allocated object. *)
Definition ctor_body (p_iface_number : Z) : M unit :=
  store_packed 0%fin 0x9 ;;;
  store_packed 1%fin (descriptor_type_u8 INTERFACE) ;;;
  store_packed 2%fin p_iface_number ;;;
  store_packed 3%fin 0 ;;;
  set_setting 0.

(** The constructor. [uninit] and [uninit_selected] are the indeterminate
    contents of [m_packed_data] and [m_selected_setting_number] before the
    body runs. An object exists only if the body does not throw; the
    control endpoint is returned in the state the call left it in. *)
Definition ctor (uninit : vec Z 9) (uninit_selected : Z)
    (p_iface_number : Z) (p_ctrl_endpoint : usb_control_endpoint)
    (p_settings : list (Z * interface_settings))
    : result t * usb_control_endpoint :=
  match ctor_body p_iface_number
          {| self := {| m_packed_data := uninit;
                        m_settings := p_settings;
                        m_selected_setting_number := uninit_selected |};
             ctrl_endpoint := p_ctrl_endpoint |} with
  | (Ok _, st) => (Ok (self st), ctrl_endpoint st)
  | (Throw e, st) => (Throw e, ctrl_endpoint st)
  end.

(** A run of [set_setting] calls, stopping at the first one that throws. *)
Fixpoint set_settings (ks : list Z) : M unit :=
  match ks with
  | [] => ret tt
  | k :: ks' => set_setting k ;;; set_settings ks'
  end.

(** The pure virtual member functions, as supplied by a concrete interface
    class with objects of type [obj]. [total_length] is what the call
    returns ([size_t]) on the object in its current state;
    [descriptor_stream] is the sequence of spans that [write_descriptors]
    hands to its callback, in invocation order. Both are read off the
    object: a change of an interface between two calls is a change of the
    store the pointers are resolved in. *)
Class virtuals (obj : Type) : Type := {
  total_length : obj -> Z;
  descriptor_stream : obj -> list span
}.

(** [iface->write_descriptors(p_dispatch)] *)
Definition write_descriptors {obj} `{virtuals obj} {S : Type}
    (o : obj) (p_dispatch : callback S) (s : S) : S :=
  fold_left (fun s sp => p_dispatch sp s) (descriptor_stream o) s.

End usb_interface.

(** ** [usb_configuration] *)

Module usb_configuration.

(** An interface pointer; the objects pointed at live in a store. *)
Definition ptr : Type := nat.

Record t : Type := {
  m_ifaces : list ptr;
  m_packed_data : vec Z 9
}.

Record config_attributes : Type := {
  self_powered : bool;
  remote_wakeup : bool
}.

Section methods.
Context {obj : Type} `{usb_interface.virtuals obj}.

(** The loop accumulating [wTotalLength], a [u16]. *)
Definition accumulate_total_length (heap : ptr -> obj) (ifaces : list ptr)
    (w : Z) : Z :=
  fold_left
    (fun w iface => to_u16 (w + usb_interface.total_length (heap iface)))
    ifaces w.

(** The constructor. [uninit] is the indeterminate content of
    [m_packed_data] before the body runs; [heap] gives the objects the
    interface pointers refer to at the time of construction. *)
Definition ctor (uninit : vec Z 9) (heap : ptr -> obj)
    (p_ifaces : list ptr) (p_self_powered p_remote_wakeup : bool)
    (p_max_power : Z) : t :=
  let d := vinsert 0%fin (to_u8 9) uninit in
  let d := vinsert 1%fin (descriptor_type_u8 CONFIGURATION) d in
  let wTotalLength :=
    accumulate_total_length heap p_ifaces (to_u16 9) in
  let packed_total_length := pack_u16_le wTotalLength in
  let d := vinsert 2%fin (packed_total_length !!! 0%fin) d in
  let d := vinsert 3%fin (packed_total_length !!! 1%fin) d in
  let d := vinsert 4%fin (to_u8 (Z.of_nat (length p_ifaces))) d in
  let bmAttributes :=
    to_u8 (Z.lor (Z.lor 0x80 (Z.shiftl (Z.b2z p_self_powered) 6))
                 (Z.shiftl (Z.b2z p_remote_wakeup) 5)) in
  let d := vinsert 7%fin bmAttributes d in
  let d := vinsert 8%fin p_max_power d in
  {| m_ifaces := p_ifaces; m_packed_data := d |}.

(** [p_dispatch(m_packed_data)], then each interface in sequence order.
    [heap] gives the objects the pointers refer to at the time of the
    call. *)
Definition write_descriptors {S : Type} (heap : ptr -> obj) (c : t)
    (p_dispatch : callback S) (s : S) : S :=
  fold_left
    (fun s iface => usb_interface.write_descriptors (heap iface) p_dispatch s)
    (m_ifaces c)
    (p_dispatch (vec_to_list (m_packed_data c)) s).
End methods.

Definition get_total_length (c : t) : Z :=
  to_u16 (Z.lor (to_u16 (Z.shiftl (m_packed_data c !!! 3%fin) 8))
                (to_u16 (m_packed_data c !!! 2%fin))).

Definition get_interface_count (c : t) : Z := m_packed_data c !!! 4%fin.

Definition get_number (c : t) : Z := m_packed_data c !!! 5%fin.

Definition get_attributes (c : t) : config_attributes :=
  let bm := m_packed_data c !!! 7%fin in
  {| self_powered := negb (Z.land bm (Z.shiftl 1 6) =? 0);
     remote_wakeup := negb (Z.land bm (Z.shiftl 1 5) =? 0) |}.

Definition get_max_power (c : t) : Z := m_packed_data c !!! 8%fin.

End usb_configuration.

(** ** The sum the total-length field is meant to hold *)

(** Sum of [total_length()] over the interfaces a sequence of pointers
    refers to. *)
Definition interfaces_total_length {obj} `{usb_interface.virtuals obj}
    (heap : usb_configuration.ptr -> obj) (ifaces : list usb_configuration.ptr)
    : Z :=
  foldr (fun iface acc => usb_interface.total_length (heap iface) + acc) 0 ifaces.

(** Concatenation of the descriptor streams of the interfaces, in sequence
    order. *)
Definition interfaces_stream {obj} `{usb_interface.virtuals obj}
    (heap : usb_configuration.ptr -> obj) (ifaces : list usb_configuration.ptr)
    : list span :=
  concat (map (fun iface => usb_interface.descriptor_stream (heap iface)) ifaces).

(** ** Sample objects used to exercise the definitions *)

Module samples.
Import usb_interface.

Definition hid_setting : interface_settings :=
  {| m_num_endpoints := 2; m_class := HID; m_subclass := 1;
     m_protocol := 1; m_str_name_idx := 4 |}.

Definition cdc_setting : interface_settings :=
  {| m_num_endpoints := 1; m_class := CDC_DATA; m_subclass := 0;
     m_protocol := 0; m_str_name_idx := 5 |}.

Definition two_settings : list (Z * interface_settings) :=
  [(0, hid_setting); (1, cdc_setting)].

Definition only_setting_one : list (Z * interface_settings) :=
  [(1, cdc_setting)].

(** Arbitrary prior content of a 9-byte member array. *)
Definition stale : vec Z 9 :=
  [# 0xA0; 0xA1; 0xA2; 0xA3; 0xA4; 0xA5; 0xA6; 0xA7; 0xA8].

Definition idle_endpoint : usb_control_endpoint := {| ep_written := [] |}.

(** Interface number 3 right after construction from [two_settings]. *)
Definition constructed : state :=
  {| self := {| m_packed_data := [# 9; 4; 3; 0; 2; 3; 1; 1; 4];
                m_settings := two_settings;
                m_selected_setting_number := 0 |};
     ctrl_endpoint := idle_endpoint |}.

(** The same interface after [set_setting(1)]. *)
Definition switched : state :=
  {| self := {| m_packed_data := [# 9; 4; 3; 0; 1; 10; 0; 0; 5];
                m_settings := two_settings;
                m_selected_setting_number := 1 |};
     ctrl_endpoint := idle_endpoint |}.

(** A concrete interface class whose answers are fixed per object. *)
Record fixed_interface : Type := {
  fi_total_length : Z;
  fi_stream : list span
}.

#[global] Instance fixed_interface_virtuals : virtuals fixed_interface :=
  {| total_length := fi_total_length; descriptor_stream := fi_stream |}.

(** An interface with one interrupt endpoint, and one without endpoints. *)
Definition keyboard : fixed_interface :=
  {| fi_total_length := 16;
     fi_stream := [[9; 4; 0; 0; 1; 3; 1; 1; 4]; [7; 5; 0x81; 3; 8; 0; 10]] |}.

Definition bare : fixed_interface :=
  {| fi_total_length := 9;
     fi_stream := [[9; 4; 1; 0; 0; 10; 0; 0; 5]] |}.

Definition small_heap (p : usb_configuration.ptr) : fixed_interface :=
  match p with
  | O => keyboard
  | _ => bare
  end.

(** An interface whose descriptor set is 65527 bytes long. *)
Definition oversized : fixed_interface :=
  {| fi_total_length := 65527;
     fi_stream := [replicate (Z.to_nat 65527) 0] |}.

Definition oversized_heap (p : usb_configuration.ptr) : fixed_interface :=
  oversized.

End samples.

(** ** [usb_descriptor], [injector] and [device_descriptor] *)

Module usb_descriptor.

(** The two constant members and the caller-owned buffer that [m_data]
    views, given by its content. *)
Record t : Type := {
  bDescriptionType : Z;
  bLength : Z;
  m_data : list Z
}.

Definition ctor (p_bDescriptionType : Z) (p_data_buf : list Z) (p_length : Z)
    : t :=
  {| bDescriptionType := p_bDescriptionType;
     bLength := p_length;
     m_data := p_data_buf |}.

(** [pack]: two stores through the span, then the span is returned. The
    result is the object with the buffer as the stores left it, and the
    bytes of the returned view. [None] stands for an access past the end of
    the span, which the source leaves undefined. *)
Definition pack (d : t) : option (t * span) :=
  if decide (2 <= length (m_data d))%nat then
    let buf := <[1%nat := bDescriptionType d]>
                 (<[0%nat := bLength d]> (m_data d)) in
    Some ({| bDescriptionType := bDescriptionType d;
             bLength := bLength d;
             m_data := buf |},
          buf)
  else None.

End usb_descriptor.

Module injector.

(** A class deriving from [injector<usb_descriptor>]: its [usb_descriptor]
    base sub-object and its override of the pure virtual
    [descriptor_pack]. *)
Class derived (D : Type) : Type := {
  base : D -> usb_descriptor.t;
  set_base : usb_descriptor.t -> D -> D;
  descriptor_pack : D -> option (D * span)
}.

(** [pack() final]: [Base::pack()], whose result is dropped, then
    [descriptor_pack()]. *)
Definition pack {D} `{derived D} (d : D) : option (D * span) :=
  match usb_descriptor.pack (base d) with
  | Some (b, _) => descriptor_pack (set_base b d)
  | None => None
  end.

End injector.

Module device_descriptor.

Record t : Type := {
  dd_base : usb_descriptor.t;
  bcdUSB : Z;
  bDeviceClass : Z;
  bDeviceSubClass : Z;
  bDeviceProtocol : Z;
  bMaxPacketSize : Z;
  idVendor : Z;
  idProduct : Z;
  bcdDevice : Z;
  iManufacturer : Z;
  iProduct : Z;
  iSerialNumber : Z;
  bNumConfigurations : Z
}.

(** The constructor. The assignment to [bMaxPacketSize] in its body has no
    right-hand side in the source; the value the member ends up with is the
    input [unset_bMaxPacketSize]. *)
Definition ctor (unset_bMaxPacketSize : Z) (p_data_buf : list Z)
    (p_bcdUSB p_bDeviceClass p_bDeviceSubClass p_bDeviceProtocol
     p_idVendor p_idProduct p_bcdDevice p_iManufacturer p_iProduct
     p_iSerialNumber p_bNumConfigurations : Z) : t :=
  {| dd_base := usb_descriptor.ctor (descriptor_type_u8 DEVICE) p_data_buf 18;
     bcdUSB := p_bcdUSB;
     bDeviceClass := p_bDeviceClass;
     bDeviceSubClass := p_bDeviceSubClass;
     bDeviceProtocol := p_bDeviceProtocol;
     bMaxPacketSize := unset_bMaxPacketSize;
     idVendor := p_idVendor;
     idProduct := p_idProduct;
     bcdDevice := p_bcdDevice;
     iManufacturer := p_iManufacturer;
     iProduct := p_iProduct;
     iSerialNumber := p_iSerialNumber;
     bNumConfigurations := p_bNumConfigurations |}.

Definition with_base (b : usb_descriptor.t) (d : t) : t :=
  {| dd_base := b;
     bcdUSB := bcdUSB d;
     bDeviceClass := bDeviceClass d;
     bDeviceSubClass := bDeviceSubClass d;
     bDeviceProtocol := bDeviceProtocol d;
     bMaxPacketSize := bMaxPacketSize d;
     idVendor := idVendor d;
     idProduct := idProduct d;
     bcdDevice := bcdDevice d;
     iManufacturer := iManufacturer d;
     iProduct := iProduct d;
     iSerialNumber := iSerialNumber d;
     bNumConfigurations := bNumConfigurations d |}.

(** [descriptor_pack() override]: [offset] is computed and not used; the
    span is returned as it is. *)
Definition descriptor_pack (d : t) : option (t * span) :=
  Some (d, usb_descriptor.m_data (dd_base d)).

#[global] Instance device_descriptor_derived : injector.derived t :=
  {| injector.base := dd_base;
     injector.set_base := with_base;
     injector.descriptor_pack := descriptor_pack |}.

End device_descriptor.

(** ** The state in which a given setting is the active one *)

(** The interface state reached from [st] by selecting index [k] when the
    registry holds the setting [s] for it: bytes 0 to 3 of the header, the
    registry and the control endpoint are those of [st]. *)
Definition interface_showing (st : usb_interface.state) (k : Z)
    (s : usb_interface.interface_settings) : usb_interface.state :=
  {| usb_interface.self :=
       {| usb_interface.m_packed_data :=
            [# usb_interface.m_packed_data (usb_interface.self st) !!! 0%fin;
               usb_interface.m_packed_data (usb_interface.self st) !!! 1%fin;
               usb_interface.m_packed_data (usb_interface.self st) !!! 2%fin;
               usb_interface.m_packed_data (usb_interface.self st) !!! 3%fin;
               usb_interface.m_num_endpoints s;
               class_code_u8 (usb_interface.m_class s);
               usb_interface.m_subclass s;
               usb_interface.m_protocol s;
               usb_interface.m_str_name_idx s ];
          usb_interface.m_settings :=
            usb_interface.m_settings (usb_interface.self st);
          usb_interface.m_selected_setting_number := k |};
     usb_interface.ctrl_endpoint := usb_interface.ctrl_endpoint st |}.

(** Every field of a setting is a byte. *)
Definition setting_is_bytes (s : usb_interface.interface_settings) : Prop :=
  is_u8 (usb_interface.m_num_endpoints s)
  /\ is_u8 (usb_interface.m_subclass s)
  /\ is_u8 (usb_interface.m_protocol s)
  /\ is_u8 (usb_interface.m_str_name_idx s).

(** ** Further sample objects *)

Module more_samples.
Import usb_interface.

Definition vendor_setting : interface_settings :=
  {| m_num_endpoints := 3; m_class := VENDOR_SPECIFIC; m_subclass := 7;
     m_protocol := 8; m_str_name_idx := 6 |}.

(** A registry in which index 1 occurs twice. *)
Definition repeated_key : list (Z * interface_settings) :=
  [(0, samples.hid_setting); (1, samples.cdc_setting); (1, vendor_setting)].

(** Interface number 3 right after construction from [repeated_key]. *)
Definition constructed_repeated : state :=
  {| self := {| m_packed_data := [# 9; 4; 3; 0; 2; 3; 1; 1; 4];
                m_settings := repeated_key;
                m_selected_setting_number := 0 |};
     ctrl_endpoint := samples.idle_endpoint |}.

(** An 18-byte buffer with recognisable content. *)
Definition marked_buffer : list Z :=
  [0xE0; 0xE1; 0xE2; 0xE3; 0xE4; 0xE5; 0xE6; 0xE7; 0xE8;
   0xE9; 0xEA; 0xEB; 0xEC; 0xED; 0xEE; 0xEF; 0xF0; 0xF1].

Definition sample_device : device_descriptor.t :=
  device_descriptor.ctor 64 marked_buffer
    0x0200 0xEF 2 1 0x1209 0x0001 0x0100 1 2 3 1.

Definition sample_descriptor : usb_descriptor.t :=
  usb_descriptor.ctor (descriptor_type_u8 STRING) marked_buffer 18.

End more_samples.

(** * Properties *)

(** ** Arithmetic of the packing helpers *)

Lemma to_u8_range (x : Z) : is_u8 (to_u8 x).
Proof. unfold is_u8, to_u8. apply Z.mod_pos_bound. lia. Qed.

Lemma to_u16_range (x : Z) : is_u16 (to_u16 x).
Proof. unfold is_u16, to_u16. apply Z.mod_pos_bound. lia. Qed.

Lemma to_u8_id (x : Z) : is_u8 x -> to_u8 x = x.
Proof. unfold is_u8, to_u8. intros Hx. apply Z.mod_small. lia. Qed.

Lemma to_u16_id (x : Z) : is_u16 x -> to_u16 x = x.
Proof. unfold is_u16, to_u16. intros Hx. apply Z.mod_small. lia. Qed.

(** The low byte selected by [p_dat & 0xFF]. *)
Lemma low_byte_mod (v : Z) : Z.land v 0xFF = v mod 256.
Proof. change 0xFF with (Z.ones 8). rewrite Z.land_ones by lia. reflexivity. Qed.

(** The high byte selected by [(p_dat & (0xFF << 8)) >> 8]. *)
Lemma high_byte_div (v : Z) :
  Z.shiftr (Z.land v (Z.shiftl 0xFF 8)) 8 = (v / 256) mod 256.
Proof.
  rewrite Z.shiftr_land.
  change (Z.shiftr (Z.shiftl 0xFF 8) 8) with (Z.ones 8).
  rewrite Z.land_ones by lia.
  rewrite Z.shiftr_div_pow2 by lia. reflexivity.
Qed.

(** [wTotalLength += iface->total_length()] is evaluated in [size_t] and
    then narrowed to [u16]; whatever the width [N >= 16] of [size_t], the
    intermediate wrap-around is absorbed by the narrowing. *)
Lemma size_t_wrap_absorbed (N w x : Z) :
  16 <= N -> to_u16 ((w + x) mod 2 ^ N) = to_u16 (w + x).
Proof.
  intros HN. unfold to_u16.
  apply Z.mod_mod_divide.
  exists (2 ^ (N - 16)).
  change 65536 with (2 ^ 16). rewrite <- Z.pow_add_r by lia.
  f_equal. lia.
Qed.

Lemma pair_first (a b : Z) : [# a; b] !!! 0%fin = a.
Proof. reflexivity. Qed.

Lemma pair_second (a b : Z) : [# a; b] !!! 1%fin = b.
Proof. reflexivity. Qed.

Lemma pack_u16_le_bytes (v : Z) :
  pack_u16_le v = [# v mod 256; (v / 256) mod 256].
Proof.
  unfold pack_u16_le, to_u8.
  rewrite low_byte_mod, high_byte_div.
  rewrite !Z.mod_mod by lia. reflexivity.
Qed.

(** A byte shifted into the high half and a byte in the low half do not
    overlap, so [|] adds them. *)
Lemma lor_high_low (hi lo : Z) :
  is_u8 lo -> Z.lor (Z.shiftl hi 8) lo = 256 * hi + lo.
Proof.
  unfold is_u8. intros Hlo.
  rewrite <- Z.add_nocarry_lor.
  - rewrite Z.shiftl_mul_pow2 by lia. change (2 ^ 8) with 256. lia.
  - apply Z.bits_inj'. intros n Hn.
    rewrite Z.land_spec, Z.bits_0.
    destruct (Z.lt_ge_cases n 8) as [Hlt | Hge].
    + rewrite Z.shiftl_spec_low by lia. reflexivity.
    + assert (Z.testbit lo n = false) as ->; [| apply andb_false_r].
      destruct (Z.eq_dec lo 0) as [-> | Hne]; [apply Z.bits_0 |].
      apply Z.bits_above_log2; [lia |].
      apply Z.log2_lt_pow2; [lia |].
      apply Z.lt_le_trans with (2 ^ 8); [change (2 ^ 8) with 256; lia |].
      apply Z.pow_le_mono_r; lia.
Qed.

(** Decoding with the expression of [get_total_length] undoes
    [pack_u16_le] on every 16-bit value. *)
Lemma decode_pack_u16_le (w : Z) :
  is_u16 w ->
  to_u16 (Z.lor (to_u16 (Z.shiftl (pack_u16_le w !!! 1%fin) 8))
                (to_u16 (pack_u16_le w !!! 0%fin))) = w.
Proof.
  intros Hw. rewrite pack_u16_le_bytes, pair_first, pair_second.
  unfold is_u16 in Hw.
  assert (Hlo : is_u8 (w mod 256)) by apply to_u8_range.
  assert (Hhi : (w / 256) mod 256 = w / 256).
  { apply Z.mod_small. split; [apply Z.div_pos; lia |].
    apply Z.div_lt_upper_bound; lia. }
  rewrite Hhi.
  assert (Hq : 0 <= w / 256 < 256).
  { rewrite <- Hhi. apply Z.mod_pos_bound. lia. }
  rewrite (to_u16_id (w mod 256)) by (unfold is_u8 in Hlo; unfold is_u16; lia).
  rewrite (to_u16_id (Z.shiftl (w / 256) 8)).
  - rewrite lor_high_low by exact Hlo.
    rewrite <- Z.div_mod by lia. apply to_u16_id. exact Hw.
  - rewrite Z.shiftl_mul_pow2 by lia. change (2 ^ 8) with 256.
    unfold is_u16. lia.
Qed.

(** The [u16] accumulator holds the running sum modulo [2^16]. *)
Lemma accumulate_total_length_mod {obj} `{usb_interface.virtuals obj}
    (heap : usb_configuration.ptr -> obj) (ifaces : list usb_configuration.ptr)
    (w : Z) :
  usb_configuration.accumulate_total_length heap ifaces (to_u16 w)
  = to_u16 (w + interfaces_total_length heap ifaces).
Proof.
  revert w. induction ifaces as [| p l IH]; intros w; cbn.
  - rewrite Z.add_0_r. reflexivity.
  - change (fold_left _ l ?a)
      with (usb_configuration.accumulate_total_length heap l a).
    assert (Hstep : to_u16 (to_u16 w + usb_interface.total_length (heap p))
                    = to_u16 (w + usb_interface.total_length (heap p))).
    { unfold to_u16. apply Zplus_mod_idemp_l. }
    rewrite Hstep, IH. f_equal.
    unfold interfaces_total_length. lia.
Qed.

(** The header written by the configuration constructor, byte by byte. The
    bytes at offsets 5 and 6 are whatever the array held before. *)
Lemma configuration_header {obj} `{usb_interface.virtuals obj}
    (uninit : vec Z 9) (heap : usb_configuration.ptr -> obj)
    (ifaces : list usb_configuration.ptr) (sp rw : bool) (mp : Z) :
  usb_configuration.m_packed_data
    (usb_configuration.ctor uninit heap ifaces sp rw mp)
  = [# 9; 2;
       pack_u16_le (to_u16 (9 + interfaces_total_length heap ifaces)) !!! 0%fin;
       pack_u16_le (to_u16 (9 + interfaces_total_length heap ifaces)) !!! 1%fin;
       to_u8 (Z.of_nat (length ifaces));
       uninit !!! 5%fin;
       uninit !!! 6%fin;
       128 + 64 * Z.b2z sp + 32 * Z.b2z rw;
       mp ].
Proof.
  unfold usb_configuration.ctor.
  rewrite accumulate_total_length_mod.
  inv_vec uninit; intros u0 u1 u2 u3 u4 u5 u6 u7 u8.
  cbn [usb_configuration.m_packed_data].
  assert (Hattr : to_u8 (Z.lor (Z.lor 128 (Z.shiftl (Z.b2z sp) 6))
                               (Z.shiftl (Z.b2z rw) 5))
                  = 128 + 64 * Z.b2z sp + 32 * Z.b2z rw)
    by (destruct sp, rw; reflexivity).
  rewrite Hattr. reflexivity.
Qed.

(** ** [pack_u16_le] *)

(** C8: [pack_u16_le] packs low byte first: [pack_u16_le(0x1234)] is
    [{0x34, 0x12}], and for every 16-bit [v] reading the pair back as
    little-endian, [byte0 + 256 * byte1], gives [v] again; both components
    are bytes. *)
Theorem pack_u16_le_roundtrip (v : Z) :
  0 <= v <= 0xFFFF ->
  pack_u16_le 0x1234 = [# 0x34; 0x12]
  /\ unpack_u16_le (pack_u16_le v) = v
  /\ is_u8 (pack_u16_le v !!! 0%fin)
  /\ is_u8 (pack_u16_le v !!! 1%fin).
Proof.
  intros Hv. split; [reflexivity |].
  unfold unpack_u16_le.
  rewrite pack_u16_le_bytes, pair_first, pair_second.
  repeat split; try (apply Z.mod_pos_bound; lia).
  rewrite (Z.mod_small (v / 256)).
  - symmetry. rewrite Z.add_comm. apply Z.div_mod. lia.
  - split; [apply Z.div_pos; lia | apply Z.div_lt_upper_bound; lia].
Qed.

Lemma pack_u16_le_roundtrip_witness :
  0 <= 0xBEEF <= 0xFFFF
  /\ pack_u16_le 0xBEEF = [# 0xEF; 0xBE]
  /\ unpack_u16_le (pack_u16_le 0xBEEF) = 0xBEEF.
Proof.
  split; [lia |]. split; [reflexivity |].
  apply (pack_u16_le_roundtrip 0xBEEF). lia.
Defined.

(** ** [usb_configuration]: the total-length field *)

(** What [get_total_length] reads back after construction, for every sum:
    the sum taken modulo [2^16], because [wTotalLength] is a [u16]. *)
Lemma get_total_length_mod {obj} `{usb_interface.virtuals obj}
    (uninit : vec Z 9) (heap : usb_configuration.ptr -> obj)
    (ifaces : list usb_configuration.ptr) (sp rw : bool) (mp : Z) :
  usb_configuration.get_total_length
    (usb_configuration.ctor uninit heap ifaces sp rw mp)
  = to_u16 (9 + interfaces_total_length heap ifaces).
Proof.
  unfold usb_configuration.get_total_length.
  rewrite configuration_header.
  change ([# ?b0; ?b1; ?b2; ?b3; ?b4; ?b5; ?b6; ?b7; ?b8] !!! 3%fin) with b3.
  change ([# ?b0; ?b1; ?b2; ?b3; ?b4; ?b5; ?b6; ?b7; ?b8] !!! 2%fin) with b2.
  apply decode_pack_u16_le, to_u16_range.
Qed.

(** C2, as the code has it: [get_total_length()] returns
    [9 + sum of total_length()] reduced modulo [2^16], the width of the
    [wTotalLength] accumulator and of header bytes 2 and 3; it is exactly
    [9 + sum] whenever that number fits in 16 bits. *)
Theorem get_total_length_after_construction {obj} `{usb_interface.virtuals obj}
    (uninit : vec Z 9) (heap : usb_configuration.ptr -> obj)
    (ifaces : list usb_configuration.ptr) (sp rw : bool) (mp : Z) :
  usb_configuration.get_total_length
    (usb_configuration.ctor uninit heap ifaces sp rw mp)
  = (9 + interfaces_total_length heap ifaces) mod 65536
  /\ (0 <= interfaces_total_length heap ifaces ->
      9 + interfaces_total_length heap ifaces <= 0xFFFF ->
      usb_configuration.get_total_length
        (usb_configuration.ctor uninit heap ifaces sp rw mp)
      = 9 + interfaces_total_length heap ifaces).
Proof.
  rewrite get_total_length_mod. split; [reflexivity |].
  intros Hlo Hhi. apply to_u16_id. unfold is_u16. lia.
Qed.

Lemma get_total_length_after_construction_witness :
  interfaces_total_length samples.small_heap [0%nat; 1%nat] = 25
  /\ usb_configuration.get_total_length
       (usb_configuration.ctor samples.stale samples.small_heap [0%nat; 1%nat]
          true false 50)
     = 9 + interfaces_total_length samples.small_heap [0%nat; 1%nat].
Proof.
  split; [reflexivity |].
  refine (proj2 (get_total_length_after_construction
                   samples.stale samples.small_heap [0%nat; 1%nat]
                   true false 50) _ _); vm_compute; discriminate.
Defined.

(** C2 as stated fails once the sum no longer fits: a single interface of
    65527 bytes gives [9 + 65527 = 65536], and the field reads back as 0. *)
Lemma get_total_length_wraps :
  interfaces_total_length samples.oversized_heap [0%nat] = 65527
  /\ usb_configuration.get_total_length
       (usb_configuration.ctor samples.stale samples.oversized_heap [0%nat]
          true false 50)
     = 0
  /\ usb_configuration.get_total_length
       (usb_configuration.ctor samples.stale samples.oversized_heap [0%nat]
          true false 50)
     <> 9 + interfaces_total_length samples.oversized_heap [0%nat].
Proof. repeat split. vm_compute. discriminate. Qed.

(** ** [usb_configuration]: attributes and max power *)

(** C9: the attribute byte written by the constructor has bit 7 set, bit 6
    equal to [self_powered], bit 5 equal to [remote_wakeup] and bits 0 to 4
    clear, and it is a byte; [get_attributes()] returns the two flags and
    [get_max_power()] the value given. With [self_powered = true],
    [remote_wakeup = false] and max power 50 the attribute byte is
    [0b1100_0000] and [bMaxPower] is 50. *)
Theorem configuration_attributes {obj} `{usb_interface.virtuals obj}
    (uninit : vec Z 9) (heap : usb_configuration.ptr -> obj)
    (ifaces : list usb_configuration.ptr) (sp rw : bool) (m : Z) :
  let c := usb_configuration.ctor uninit heap ifaces sp rw m in
  let bm := usb_configuration.m_packed_data c !!! 7%fin in
  Z.testbit bm 7 = true
  /\ Z.testbit bm 6 = sp
  /\ Z.testbit bm 5 = rw
  /\ Z.land bm 0x1F = 0
  /\ is_u8 bm
  /\ usb_configuration.get_attributes c
     = {| usb_configuration.self_powered := sp;
          usb_configuration.remote_wakeup := rw |}
  /\ usb_configuration.get_max_power c = m
  /\ usb_configuration.m_packed_data
       (usb_configuration.ctor uninit heap ifaces true false 50) !!! 7%fin
     = 0xC0
  /\ usb_configuration.m_packed_data
       (usb_configuration.ctor uninit heap ifaces true false 50) !!! 8%fin
     = 50.
Proof.
  intros c bm. subst bm c.
  unfold usb_configuration.get_attributes, usb_configuration.get_max_power.
  rewrite !configuration_header.
  change ([# ?b0; ?b1; ?b2; ?b3; ?b4; ?b5; ?b6; ?b7; ?b8] !!! 7%fin) with b7.
  change ([# ?b0; ?b1; ?b2; ?b3; ?b4; ?b5; ?b6; ?b7; ?b8] !!! 8%fin) with b8.
  unfold is_u8.
  destruct sp, rw; cbn; repeat split; lia.
Qed.

(** ** [usb_configuration]: the bytes the constructor leaves alone *)

(** C10: the constructor assigns header bytes 0, 1, 2, 3, 4, 7 and 8 (their
    values do not depend on what the array held before) and leaves bytes 5
    and 6 as they were; the accessors are functions of the object and write
    nothing. So [get_number()] returns the prior content of byte 5, which
    no argument of the constructor determines: for every byte [k] there is a
    prior content for which the same construction makes it return [k]. *)
Theorem configuration_number_indeterminate {obj} `{usb_interface.virtuals obj}
    (uninit uninit' : vec Z 9) (heap : usb_configuration.ptr -> obj)
    (ifaces : list usb_configuration.ptr) (sp rw : bool) (mp k : Z) :
  let c := usb_configuration.ctor uninit heap ifaces sp rw mp in
  let c' := usb_configuration.ctor uninit' heap ifaces sp rw mp in
  usb_configuration.m_packed_data c !!! 5%fin = uninit !!! 5%fin
  /\ usb_configuration.m_packed_data c !!! 6%fin = uninit !!! 6%fin
  /\ usb_configuration.get_number c = uninit !!! 5%fin
  /\ usb_configuration.get_number
       (usb_configuration.ctor (vinsert 5%fin k uninit) heap ifaces sp rw mp)
     = k
  /\ usb_configuration.m_packed_data c !!! 0%fin
     = usb_configuration.m_packed_data c' !!! 0%fin
  /\ usb_configuration.m_packed_data c !!! 1%fin
     = usb_configuration.m_packed_data c' !!! 1%fin
  /\ usb_configuration.m_packed_data c !!! 2%fin
     = usb_configuration.m_packed_data c' !!! 2%fin
  /\ usb_configuration.m_packed_data c !!! 3%fin
     = usb_configuration.m_packed_data c' !!! 3%fin
  /\ usb_configuration.m_packed_data c !!! 4%fin
     = usb_configuration.m_packed_data c' !!! 4%fin
  /\ usb_configuration.m_packed_data c !!! 7%fin
     = usb_configuration.m_packed_data c' !!! 7%fin
  /\ usb_configuration.m_packed_data c !!! 8%fin
     = usb_configuration.m_packed_data c' !!! 8%fin.
Proof.
  intros c c'. subst c c'. unfold usb_configuration.get_number.
  rewrite !configuration_header, vlookup_insert.
  repeat split.
Qed.

(** ** [usb_configuration]: writing the descriptors out *)

Lemma pushed_bytes_app (l1 l2 : list span) :
  pushed_bytes (l1 ++ l2) = pushed_bytes l1 + pushed_bytes l2.
Proof.
  unfold pushed_bytes. rewrite concat_app, length_app. lia.
Qed.

Lemma pushed_bytes_cons (sp : span) (l : list span) :
  pushed_bytes (sp :: l) = Z.of_nat (length sp) + pushed_bytes l.
Proof.
  unfold pushed_bytes. cbn [concat]. rewrite length_app. lia.
Qed.

(** An interface writing to the recording sink appends its stream. *)
Lemma interface_write_recorded {obj} `{usb_interface.virtuals obj}
    (o : obj) (log : list span) :
  usb_interface.write_descriptors o record_push log
  = log ++ usb_interface.descriptor_stream o.
Proof.
  unfold usb_interface.write_descriptors.
  generalize (usb_interface.descriptor_stream o) as stream.
  intros stream. revert log.
  induction stream as [| sp stream IH]; intros log; cbn [fold_left].
  - rewrite app_nil_r. reflexivity.
  - rewrite IH. unfold record_push. rewrite <- app_assoc. reflexivity.
Qed.

Lemma interfaces_write_recorded {obj} `{usb_interface.virtuals obj}
    (heap : usb_configuration.ptr -> obj) (ifaces : list usb_configuration.ptr)
    (log : list span) :
  fold_left
    (fun s iface => usb_interface.write_descriptors (heap iface) record_push s)
    ifaces log
  = log ++ interfaces_stream heap ifaces.
Proof.
  revert log. induction ifaces as [| p l IH]; intros log; cbn [fold_left].
  - unfold interfaces_stream. cbn. rewrite app_nil_r. reflexivity.
  - rewrite IH, interface_write_recorded.
    unfold interfaces_stream. cbn [map concat].
    rewrite <- app_assoc. reflexivity.
Qed.

(** If every interface pushes as many bytes as its [total_length()] says, the
    interfaces together push the sum. *)
Lemma interfaces_stream_bytes {obj} `{usb_interface.virtuals obj}
    (heap : usb_configuration.ptr -> obj) (ifaces : list usb_configuration.ptr) :
  (forall p, p ∈ ifaces ->
     pushed_bytes (usb_interface.descriptor_stream (heap p))
     = usb_interface.total_length (heap p)) ->
  pushed_bytes (interfaces_stream heap ifaces)
  = interfaces_total_length heap ifaces.
Proof.
  induction ifaces as [| p l IH]; intros Hexact.
  - reflexivity.
  - unfold interfaces_stream, interfaces_total_length. cbn [map concat foldr].
    rewrite pushed_bytes_app.
    rewrite Hexact by apply list_elem_of_here.
    f_equal. apply IH. intros q Hq. apply Hexact. apply list_elem_of_further, Hq.
Qed.

(** The sum depends on the interfaces only through their [total_length()]. *)
Lemma interfaces_total_length_ext {obj} `{usb_interface.virtuals obj}
    (heap heap' : usb_configuration.ptr -> obj)
    (ifaces : list usb_configuration.ptr) :
  (forall p, p ∈ ifaces ->
     usb_interface.total_length (heap p) = usb_interface.total_length (heap' p)) ->
  interfaces_total_length heap ifaces = interfaces_total_length heap' ifaces.
Proof.
  induction ifaces as [| p l IH]; intros Hsame; [reflexivity |].
  unfold interfaces_total_length. cbn [foldr].
  rewrite Hsame by apply list_elem_of_here.
  f_equal. apply IH. intros q Hq. apply Hsame. apply list_elem_of_further, Hq.
Qed.

(** C1, as the code has it. For a configuration [c] built from the pointers
    [ifaces], [write_descriptors(dispatch)] calls [dispatch] on the 9 stored
    header bytes first and then each interface's [write_descriptors] with the
    same [dispatch], in the order given at construction; the recorded stream
    is the header followed by the interfaces' streams in that order. If each
    interface pushes exactly [total_length()] bytes, [9 + sum] bytes are
    pushed; that number is [get_total_length()] provided the interfaces
    report the lengths they reported at construction and [9 + sum] fits in
    16 bits. *)
Theorem write_descriptors_order_and_length {obj} `{usb_interface.virtuals obj}
    (uninit : vec Z 9) (heap0 heap : usb_configuration.ptr -> obj)
    (ifaces : list usb_configuration.ptr) (sp rw : bool) (mp : Z) :
  let c := usb_configuration.ctor uninit heap0 ifaces sp rw mp in
  let header := vec_to_list (usb_configuration.m_packed_data c) in
  (forall (S : Type) (dispatch : callback S) (s : S),
     usb_configuration.write_descriptors heap c dispatch s
     = fold_left
         (fun s iface => usb_interface.write_descriptors (heap iface) dispatch s)
         ifaces (dispatch header s))
  /\ length header = 9%nat
  /\ usb_configuration.write_descriptors heap c record_push []
     = header :: interfaces_stream heap ifaces
  /\ ((forall p, p ∈ ifaces ->
         pushed_bytes (usb_interface.descriptor_stream (heap p))
         = usb_interface.total_length (heap p)) ->
      pushed_bytes (usb_configuration.write_descriptors heap c record_push [])
      = 9 + interfaces_total_length heap ifaces
      /\ ((forall p, p ∈ ifaces ->
             usb_interface.total_length (heap p)
             = usb_interface.total_length (heap0 p)) ->
          9 + interfaces_total_length heap ifaces <= 0xFFFF ->
          pushed_bytes
            (usb_configuration.write_descriptors heap c record_push [])
          = usb_configuration.get_total_length c)).
Proof.
  intros c header.
  assert (Hlen : length header = 9%nat) by apply length_vec_to_list.
  assert (Hlog : usb_configuration.write_descriptors heap c record_push []
                 = header :: interfaces_stream heap ifaces).
  { unfold usb_configuration.write_descriptors.
    rewrite interfaces_write_recorded. reflexivity. }
  split; [reflexivity |]. split; [exact Hlen |]. split; [exact Hlog |].
  intros Hexact.
  assert (Hcount :
            pushed_bytes
              (usb_configuration.write_descriptors heap c record_push [])
            = 9 + interfaces_total_length heap ifaces).
  { rewrite Hlog, pushed_bytes_cons, Hlen.
    rewrite interfaces_stream_bytes by exact Hexact. lia. }
  split; [exact Hcount |].
  intros Hsame Hfits. rewrite Hcount. subst c.
  rewrite get_total_length_mod.
  rewrite <- (interfaces_total_length_ext heap heap0) by exact Hsame.
  assert (Hnonneg : 0 <= 9 + interfaces_total_length heap ifaces)
    by (rewrite <- Hcount; unfold pushed_bytes; lia).
  symmetry. apply to_u16_id. unfold is_u16. lia.
Qed.

Lemma write_descriptors_order_and_length_witness :
  usb_configuration.write_descriptors samples.small_heap
    (usb_configuration.ctor samples.stale samples.small_heap [0%nat; 1%nat]
       true false 50)
    record_push []
  = [ [9; 2; 34; 0; 2; 0xA5; 0xA6; 0xC0; 50];
      [9; 4; 0; 0; 1; 3; 1; 1; 4]; [7; 5; 0x81; 3; 8; 0; 10];
      [9; 4; 1; 0; 0; 10; 0; 0; 5] ]
  /\ pushed_bytes
       (usb_configuration.write_descriptors samples.small_heap
          (usb_configuration.ctor samples.stale samples.small_heap
             [0%nat; 1%nat] true false 50)
          record_push [])
     = usb_configuration.get_total_length
         (usb_configuration.ctor samples.stale samples.small_heap
            [0%nat; 1%nat] true false 50).
Proof.
  split; [reflexivity |].
  destruct (write_descriptors_order_and_length
              samples.stale samples.small_heap samples.small_heap
              [0%nat; 1%nat] true false 50) as (_ & _ & _ & Hcount).
  destruct Hcount as [_ Hget].
  - intros p Hp. apply list_elem_of_In in Hp.
    destruct Hp as [<- | [<- | []]]; reflexivity.
  - apply Hget.
    + reflexivity.
    + vm_compute. discriminate.
Defined.

(** C1 as stated fails on the byte count: one interface that pushes exactly
    its [total_length()] of 65527 bytes makes the configuration push 65536
    bytes, while [get_total_length()] is 0. *)
Lemma write_descriptors_length_wraps :
  Forall
    (fun p =>
       pushed_bytes (usb_interface.descriptor_stream (samples.oversized_heap p))
       = usb_interface.total_length (samples.oversized_heap p))
    [0%nat]
  /\ pushed_bytes
       (usb_configuration.write_descriptors samples.oversized_heap
          (usb_configuration.ctor samples.stale samples.oversized_heap
             [0%nat] true false 50)
          record_push [])
     = 65536
  /\ usb_configuration.get_total_length
       (usb_configuration.ctor samples.stale samples.oversized_heap
          [0%nat] true false 50)
     = 0.
Proof.
  split; [| split]; [| vm_compute; reflexivity | vm_compute; reflexivity].
  constructor; [vm_compute; reflexivity | constructor].
Qed.

(** ** [interface_settings]: the class-code check *)

(** C4: constructing an [interface_settings] with class code
    [USE_INTERFACE_DESCRIPTOR], [HUB] or [BILLBOARD] throws
    [argument_out_of_domain] and yields no object; with every other class
    code it succeeds and stores the endpoint count, class, subclass, protocol
    and string index it was given. *)
Theorem interface_settings_class_check
    (n : Z) (c : usb_class_code) (sub proto idx : Z) :
  (c = USE_INTERFACE_DESCRIPTOR \/ c = HUB \/ c = BILLBOARD ->
   usb_interface.interface_settings_ctor n c sub proto idx
   = Throw argument_out_of_domain)
  /\ (c <> USE_INTERFACE_DESCRIPTOR -> c <> HUB -> c <> BILLBOARD ->
      usb_interface.interface_settings_ctor n c sub proto idx
      = Ok {| usb_interface.m_num_endpoints := n;
              usb_interface.m_class := c;
              usb_interface.m_subclass := sub;
              usb_interface.m_protocol := proto;
              usb_interface.m_str_name_idx := idx |}).
Proof.
  unfold usb_interface.interface_settings_ctor. split.
  - intros [-> | [-> | ->]]; reflexivity.
  - intros H0 H9 H11.
    rewrite !bool_decide_eq_false_2 by assumption. reflexivity.
Qed.

Lemma interface_settings_class_check_witness :
  usb_interface.interface_settings_ctor 2 HUB 1 1 4
  = Throw argument_out_of_domain
  /\ usb_interface.interface_settings_ctor 2 HID 1 1 4
     = Ok samples.hid_setting.
Proof.
  split.
  - apply (proj1 (interface_settings_class_check 2 HUB 1 1 4)).
    right. left. reflexivity.
  - apply (proj2 (interface_settings_class_check 2 HID 1 1 4)); discriminate.
Defined.

(** ** [usb_interface]: looking a setting up *)

Section lookup.
Import usb_interface.
Implicit Types (l : list (Z * interface_settings)) (k : Z).

Lemma find_setting_elem l k s : find_setting l k = Some s -> (k, s) ∈ l.
Proof.
  induction l as [| [k' s'] l IH]; cbn; [discriminate |].
  destruct (Z.eqb_spec k' k) as [-> | Hne].
  - intros [= ->]. apply list_elem_of_here.
  - intros Hfind. apply list_elem_of_further, IH, Hfind.
Qed.

Lemma find_setting_present l k : k ∈ l.*1 -> is_Some (find_setting l k).
Proof.
  induction l as [| [k' s'] l IH]; cbn.
  - intros Hin. apply elem_of_nil in Hin. contradiction.
  - intros Hin. destruct (Z.eqb_spec k' k) as [-> | Hne]; [eauto |].
    apply IH. apply elem_of_cons in Hin as [-> | Hin]; [contradiction | exact Hin].
Qed.

Lemma find_setting_absent l k : k ∉ l.*1 -> find_setting l k = None.
Proof.
  intros Hnot. destruct (find_setting l k) as [s |] eqn:Hfind; [| reflexivity].
  exfalso. apply Hnot. apply find_setting_elem in Hfind.
  apply list_elem_of_fmap. exists (k, s). split; [reflexivity | exact Hfind].
Qed.

(** [set_setting] when the lookup succeeds: five stores into the header,
    then the store of the selected number. *)
Lemma set_setting_found (st : state) k s :
  find_setting (m_settings (self st)) k = Some s ->
  set_setting k st
  = (Ok tt,
     {| self :=
          {| m_packed_data :=
               vinsert 8%fin (m_str_name_idx s)
                 (vinsert 7%fin (m_protocol s)
                    (vinsert 6%fin (m_subclass s)
                       (vinsert 5%fin (class_code_u8 (m_class s))
                          (vinsert 4%fin (m_num_endpoints s)
                             (m_packed_data (self st))))));
             m_settings := m_settings (self st);
             m_selected_setting_number := k |};
        ctrl_endpoint := ctrl_endpoint st |}).
Proof.
  intros Hfind.
  unfold set_setting, bind, get_interface_setting.
  rewrite Hfind. reflexivity.
Qed.

(** [set_setting] when the lookup fails: the throw happens before any
    store. *)
Lemma set_setting_missing (st : state) k :
  find_setting (m_settings (self st)) k = None ->
  set_setting k st = (Throw argument_out_of_domain, st).
Proof.
  intros Hfind.
  unfold set_setting, bind, get_interface_setting.
  rewrite Hfind. reflexivity.
Qed.

(** Whatever the outcome, [set_setting] keeps the registry, the first four
    header bytes and the control endpoint. *)
Lemma set_setting_frame (st st' : state) k (r : result unit) :
  set_setting k st = (r, st') ->
  m_settings (self st') = m_settings (self st)
  /\ ctrl_endpoint st' = ctrl_endpoint st
  /\ m_packed_data (self st') !!! 0%fin = m_packed_data (self st) !!! 0%fin
  /\ m_packed_data (self st') !!! 1%fin = m_packed_data (self st) !!! 1%fin
  /\ m_packed_data (self st') !!! 2%fin = m_packed_data (self st) !!! 2%fin
  /\ m_packed_data (self st') !!! 3%fin = m_packed_data (self st) !!! 3%fin.
Proof.
  destruct (find_setting (m_settings (self st)) k) as [s |] eqn:Hfind.
  - rewrite (set_setting_found st k s Hfind).
    intros Heq. apply pair_equal_spec in Heq as [_ <-].
    cbn [self m_settings ctrl_endpoint m_packed_data].
    rewrite !vlookup_insert_ne by discriminate. repeat split.
  - rewrite (set_setting_missing st k Hfind).
    intros Heq. apply pair_equal_spec in Heq as [_ <-].
    repeat split.
Qed.
End lookup.

(** ** [usb_interface]: [set_setting] *)

(** C3: for an index present in the settings, [set_setting] succeeds, makes
    [get_selected_setting_number()] return the index and rewrites header
    bytes 4 to 8 to the endpoint count, class, subclass, protocol and string
    index of the setting found (the first entry with that index), leaving
    bytes 0 to 3 alone; for an absent index it throws
    [argument_out_of_domain] and the whole state, header bytes and selected
    number included, is left as it was. *)
Theorem set_setting_commit_or_reject (st : usb_interface.state) (i : Z) :
  (i ∈ (usb_interface.m_settings (usb_interface.self st)).*1 ->
   exists (s : usb_interface.interface_settings) (st' : usb_interface.state),
     usb_interface.find_setting
       (usb_interface.m_settings (usb_interface.self st)) i = Some s
     /\ (i, s) ∈ usb_interface.m_settings (usb_interface.self st)
     /\ usb_interface.set_setting i st = (Ok tt, st')
     /\ usb_interface.get_selected_setting_number (usb_interface.self st') = i
     /\ usb_interface.m_packed_data (usb_interface.self st') !!! 4%fin
        = usb_interface.m_num_endpoints s
     /\ usb_interface.m_packed_data (usb_interface.self st') !!! 5%fin
        = class_code_u8 (usb_interface.m_class s)
     /\ usb_interface.m_packed_data (usb_interface.self st') !!! 6%fin
        = usb_interface.m_subclass s
     /\ usb_interface.m_packed_data (usb_interface.self st') !!! 7%fin
        = usb_interface.m_protocol s
     /\ usb_interface.m_packed_data (usb_interface.self st') !!! 8%fin
        = usb_interface.m_str_name_idx s
     /\ usb_interface.m_packed_data (usb_interface.self st') !!! 0%fin
        = usb_interface.m_packed_data (usb_interface.self st) !!! 0%fin
     /\ usb_interface.m_packed_data (usb_interface.self st') !!! 1%fin
        = usb_interface.m_packed_data (usb_interface.self st) !!! 1%fin
     /\ usb_interface.m_packed_data (usb_interface.self st') !!! 2%fin
        = usb_interface.m_packed_data (usb_interface.self st) !!! 2%fin
     /\ usb_interface.m_packed_data (usb_interface.self st') !!! 3%fin
        = usb_interface.m_packed_data (usb_interface.self st) !!! 3%fin)
  /\ (i ∉ (usb_interface.m_settings (usb_interface.self st)).*1 ->
      usb_interface.set_setting i st = (Throw argument_out_of_domain, st)).
Proof.
  split.
  - intros Hin. destruct (find_setting_present _ _ Hin) as [s Hfind].
    eexists s, _. split; [exact Hfind |].
    split; [apply find_setting_elem, Hfind |].
    split; [apply set_setting_found, Hfind |].
    cbn [usb_interface.self usb_interface.m_packed_data
         usb_interface.get_selected_setting_number
         usb_interface.m_selected_setting_number].
    split; [reflexivity |].
    repeat match goal with |- _ /\ _ => split end;
      rewrite ?vlookup_insert_ne by discriminate;
      first [apply vlookup_insert | reflexivity].
  - intros Hnot. apply set_setting_missing, find_setting_absent, Hnot.
Qed.

Lemma set_setting_commit_or_reject_witness :
  (exists (s : usb_interface.interface_settings) (st' : usb_interface.state),
     usb_interface.find_setting samples.two_settings 1 = Some s
     /\ (1, s) ∈ samples.two_settings
     /\ usb_interface.set_setting 1 samples.constructed = (Ok tt, st')
     /\ usb_interface.get_selected_setting_number (usb_interface.self st') = 1)
  /\ usb_interface.set_setting 7 samples.constructed
     = (Throw argument_out_of_domain, samples.constructed).
Proof.
  split.
  - destruct (proj1 (set_setting_commit_or_reject samples.constructed 1))
      as (s & st' & Hfind & Helem & Hset & Hsel & _).
    + apply list_elem_of_further, list_elem_of_here.
    + exists s, st'. repeat split; assumption.
  - apply (proj2 (set_setting_commit_or_reject samples.constructed 7)).
    intros Hin. apply list_elem_of_In in Hin.
    destruct Hin as [H0 | [H1 | []]]; discriminate.
Defined.

(** ** [usb_interface]: construction *)

(** The constructor when setting 0 is found. *)
Lemma interface_ctor_found (uninit : vec Z 9) (usel n : Z)
    (ep : usb_control_endpoint)
    (settings : list (Z * usb_interface.interface_settings))
    (s : usb_interface.interface_settings) :
  usb_interface.find_setting settings 0 = Some s ->
  usb_interface.ctor uninit usel n ep settings
  = (Ok {| usb_interface.m_packed_data :=
             [# 9; 4; n; 0;
                usb_interface.m_num_endpoints s;
                class_code_u8 (usb_interface.m_class s);
                usb_interface.m_subclass s;
                usb_interface.m_protocol s;
                usb_interface.m_str_name_idx s ];
           usb_interface.m_settings := settings;
           usb_interface.m_selected_setting_number := 0 |},
     ep).
Proof.
  intros Hfind.
  unfold usb_interface.ctor, usb_interface.ctor_body, usb_interface.bind.
  unfold usb_interface.store_packed at 1 2 3 4.
  rewrite (set_setting_found _ 0 s) by exact Hfind.
  cbn [usb_interface.self usb_interface.m_packed_data
       usb_interface.m_settings usb_interface.ctrl_endpoint].
  inv_vec uninit; intros u0 u1 u2 u3 u4 u5 u6 u7 u8. reflexivity.
Qed.

(** The constructor when setting 0 is missing. *)
Lemma interface_ctor_missing (uninit : vec Z 9) (usel n : Z)
    (ep : usb_control_endpoint)
    (settings : list (Z * usb_interface.interface_settings)) :
  usb_interface.find_setting settings 0 = None ->
  usb_interface.ctor uninit usel n ep settings
  = (Throw argument_out_of_domain, ep).
Proof.
  intros Hfind.
  unfold usb_interface.ctor, usb_interface.ctor_body, usb_interface.bind.
  unfold usb_interface.store_packed at 1 2 3 4.
  rewrite (set_setting_missing _ 0) by exact Hfind.
  reflexivity.
Qed.

(** C5: constructing a [usb_interface] from settings that contain index 0
    succeeds, with [get_selected_setting_number()] equal to 0 and header
    bytes 4 to 8 equal to the fields of setting 0 (bytes 0 to 3 being 9, the
    INTERFACE type code, the interface number and 0), whatever the object's
    storage held before; from settings without index 0 it throws
    [argument_out_of_domain]. *)
Theorem interface_construction (uninit : vec Z 9) (usel n : Z)
    (ep : usb_control_endpoint)
    (settings : list (Z * usb_interface.interface_settings)) :
  (0 ∈ settings.*1 ->
   exists (s : usb_interface.interface_settings) (i : usb_interface.t),
     usb_interface.find_setting settings 0 = Some s
     /\ (0, s) ∈ settings
     /\ usb_interface.ctor uninit usel n ep settings = (Ok i, ep)
     /\ usb_interface.get_selected_setting_number i = 0
     /\ usb_interface.m_packed_data i
        = [# 9; descriptor_type_u8 INTERFACE; n; 0;
             usb_interface.m_num_endpoints s;
             class_code_u8 (usb_interface.m_class s);
             usb_interface.m_subclass s;
             usb_interface.m_protocol s;
             usb_interface.m_str_name_idx s ]
     /\ usb_interface.m_settings i = settings)
  /\ (0 ∉ settings.*1 ->
      usb_interface.ctor uninit usel n ep settings
      = (Throw argument_out_of_domain, ep)).
Proof.
  split.
  - intros Hin. destruct (find_setting_present _ _ Hin) as [s Hfind].
    eexists s, _. split; [exact Hfind |].
    split; [apply find_setting_elem, Hfind |].
    split; [apply interface_ctor_found, Hfind |].
    repeat split.
  - intros Hnot. apply interface_ctor_missing, find_setting_absent, Hnot.
Qed.

Lemma interface_construction_witness :
  (exists (s : usb_interface.interface_settings) (i : usb_interface.t),
     usb_interface.find_setting samples.two_settings 0 = Some s
     /\ usb_interface.ctor samples.stale 77 3 samples.idle_endpoint
          samples.two_settings
        = (Ok i, samples.idle_endpoint)
     /\ usb_interface.get_selected_setting_number i = 0)
  /\ usb_interface.ctor samples.stale 77 3 samples.idle_endpoint
       samples.only_setting_one
     = (Throw argument_out_of_domain, samples.idle_endpoint).
Proof.
  split.
  - destruct (proj1 (interface_construction samples.stale 77 3
                       samples.idle_endpoint samples.two_settings))
      as (s & i & Hfind & _ & Hctor & Hsel & _).
    + apply list_elem_of_here.
    + exists s, i. repeat split; assumption.
  - apply (proj2 (interface_construction samples.stale 77 3
                    samples.idle_endpoint samples.only_setting_one)).
    intros Hin. apply list_elem_of_In in Hin.
    destruct Hin as [H1 | []]; discriminate.
Defined.

(** ** [usb_interface]: the accessors across setting changes *)

Lemma last_cons_default (k d : Z) (ks : list Z) :
  List.last (k :: ks) d = List.last ks k.
Proof.
  revert k d. induction ks as [| k' ks IH]; intros k d; [reflexivity |].
  change (List.last (k :: k' :: ks) d) with (List.last (k' :: ks) d).
  rewrite (IH k' d), (IH k' k). reflexivity.
Qed.

(** A successful [set_setting] records its argument. *)
Lemma set_setting_selected (st st' : usb_interface.state) (k : Z) :
  usb_interface.set_setting k st = (Ok tt, st') ->
  usb_interface.m_selected_setting_number (usb_interface.self st') = k.
Proof.
  destruct (usb_interface.find_setting
              (usb_interface.m_settings (usb_interface.self st)) k)
    as [s |] eqn:Hfind.
  - rewrite (set_setting_found st k s Hfind).
    intros Heq. apply pair_equal_spec in Heq as [_ <-]. reflexivity.
  - rewrite (set_setting_missing st k Hfind). intros Heq.
    apply pair_equal_spec in Heq as [Hthrow _]. discriminate.
Qed.

(** Across a run of successful [set_setting] calls header bytes 2 and 3 stay
    put and the selected number follows the last call. *)
Lemma set_settings_run (ks : list Z) (st st' : usb_interface.state) :
  usb_interface.set_settings ks st = (Ok tt, st') ->
  usb_interface.m_packed_data (usb_interface.self st') !!! 2%fin
  = usb_interface.m_packed_data (usb_interface.self st) !!! 2%fin
  /\ usb_interface.m_packed_data (usb_interface.self st') !!! 3%fin
     = usb_interface.m_packed_data (usb_interface.self st) !!! 3%fin
  /\ usb_interface.m_selected_setting_number (usb_interface.self st')
     = List.last ks
         (usb_interface.m_selected_setting_number (usb_interface.self st)).
Proof.
  revert st. induction ks as [| k ks IH]; intros st.
  - intros Heq. apply pair_equal_spec in Heq as [_ <-]. repeat split.
  - cbn [usb_interface.set_settings]. unfold usb_interface.bind.
    destruct (usb_interface.set_setting k st) as [[[] | e] st1] eqn:Hstep.
    + intros Hrest. destruct (IH st1 Hrest) as (H2 & H3 & Hsel).
      destruct (set_setting_frame st st1 k (Ok tt) Hstep)
        as (_ & _ & _ & _ & F2 & F3).
      rewrite H2, H3, Hsel, F2, F3.
      rewrite (set_setting_selected st st1 k Hstep).
      rewrite last_cons_default. repeat split.
    + intros Heq. apply pair_equal_spec in Heq as [Hthrow _]. discriminate.
Qed.

(** C6, as the code has it: in every state reached by a successful
    construction followed by successful [set_setting] calls,
    [get_interface_number()] is header byte 2, the interface number given at
    construction, and [get_selected_setting_number()] is the member
    [m_selected_setting_number], the argument of the last [set_setting] call
    (0 when there was none); right after construction that is also the
    content of header byte 3. *)
Theorem accessors_after_setting_changes (uninit : vec Z 9) (usel n : Z)
    (ep ep0 : usb_control_endpoint)
    (settings : list (Z * usb_interface.interface_settings))
    (ks : list Z) (i0 : usb_interface.t) (st' : usb_interface.state) :
  usb_interface.ctor uninit usel n ep settings = (Ok i0, ep0) ->
  usb_interface.set_settings ks
    {| usb_interface.self := i0; usb_interface.ctrl_endpoint := ep0 |}
  = (Ok tt, st') ->
  usb_interface.get_interface_number (usb_interface.self st')
  = usb_interface.m_packed_data (usb_interface.self st') !!! 2%fin
  /\ usb_interface.get_interface_number (usb_interface.self st') = n
  /\ usb_interface.get_selected_setting_number (usb_interface.self st')
     = usb_interface.m_selected_setting_number (usb_interface.self st')
  /\ usb_interface.get_selected_setting_number (usb_interface.self st')
     = List.last ks 0
  /\ usb_interface.get_selected_setting_number i0
     = usb_interface.m_packed_data i0 !!! 3%fin.
Proof.
  intros Hctor Hrun.
  destruct (usb_interface.find_setting settings 0) as [s |] eqn:Hfind.
  - rewrite (interface_ctor_found uninit usel n ep settings s Hfind) in Hctor.
    apply pair_equal_spec in Hctor as [Hobj _].
    assert (Hi0 : i0 = {| usb_interface.m_packed_data :=
                            [# 9; 4; n; 0;
                               usb_interface.m_num_endpoints s;
                               class_code_u8 (usb_interface.m_class s);
                               usb_interface.m_subclass s;
                               usb_interface.m_protocol s;
                               usb_interface.m_str_name_idx s ];
                          usb_interface.m_settings := settings;
                          usb_interface.m_selected_setting_number := 0 |})
      by congruence.
    destruct (set_settings_run ks _ st' Hrun) as (H2 & _ & Hsel).
    unfold usb_interface.get_interface_number,
      usb_interface.get_selected_setting_number.
    rewrite H2, Hsel. subst i0. repeat split.
  - rewrite (interface_ctor_missing uninit usel n ep settings Hfind) in Hctor.
    apply pair_equal_spec in Hctor as [Hthrow _]. discriminate.
Qed.

Lemma accessors_after_setting_changes_witness :
  usb_interface.get_interface_number (usb_interface.self samples.switched) = 3
  /\ usb_interface.get_selected_setting_number
       (usb_interface.self samples.switched)
     = 1.
Proof.
  destruct (accessors_after_setting_changes
              samples.stale 77 3 samples.idle_endpoint samples.idle_endpoint
              samples.two_settings [1; 0; 1]
              (usb_interface.self samples.constructed) samples.switched)
    as (_ & Hnum & _ & Hsel & _).
  - reflexivity.
  - reflexivity.
  - split; [exact Hnum | exact Hsel].
Defined.

(** C6 as stated fails on the selected setting: after construction from two
    settings and a successful [set_setting(1)],
    [get_selected_setting_number()] is 1 while header byte 3 is still 0. *)
Lemma selected_setting_not_in_header :
  usb_interface.ctor samples.stale 77 3 samples.idle_endpoint
    samples.two_settings
  = (Ok (usb_interface.self samples.constructed), samples.idle_endpoint)
  /\ usb_interface.set_setting 1 samples.constructed
     = (Ok tt, samples.switched)
  /\ usb_interface.get_selected_setting_number
       (usb_interface.self samples.switched)
     = 1
  /\ usb_interface.m_packed_data (usb_interface.self samples.switched) !!! 3%fin
     = 0.
Proof. repeat split. Qed.

(** ** [usb_interface]: the control endpoint *)

(** C7, on the code: no call of [set_setting], successful or not, touches
    the control endpoint, whereas a [ctrl_write] would have appended its
    buffer to what the endpoint was sent. On the sample interface
    [set_setting(1)] succeeds and the endpoint has still been sent
    nothing. *)
Theorem set_setting_skips_control_endpoint (st : usb_interface.state)
    (i : Z) (buf : span) :
  usb_interface.ctrl_endpoint (usb_interface.set_setting i st).2
  = usb_interface.ctrl_endpoint st
  /\ ep_written
       (usb_interface.ctrl_endpoint (usb_interface.ctrl_write buf st).2)
     = ep_written (usb_interface.ctrl_endpoint st) ++ [buf]
  /\ usb_interface.set_setting 1 samples.constructed
     = (Ok tt, samples.switched)
  /\ ep_written (usb_interface.ctrl_endpoint samples.switched) = [].
Proof.
  split; [| repeat split].
  destruct (usb_interface.set_setting i st) as [r st'] eqn:Hstep.
  apply (set_setting_frame st st' i r Hstep).
Qed.

(** * Further properties of the code *)

(** ** [usb_descriptor::pack] *)

(** X1: on a buffer of at least two bytes [pack] succeeds; the view it
    returns is the whole buffer, of unchanged length, whose first two bytes
    are now [bLength] and [bDescriptionType] and whose other bytes are what
    they were; the two constant members are untouched. *)
Theorem usb_descriptor_pack_stamps_header (d : usb_descriptor.t) :
  (2 <= length (usb_descriptor.m_data d))%nat ->
  exists (d' : usb_descriptor.t) (view : span),
    usb_descriptor.pack d = Some (d', view)
    /\ view = usb_descriptor.m_data d'
    /\ length view = length (usb_descriptor.m_data d)
    /\ view !! 0%nat = Some (usb_descriptor.bLength d)
    /\ view !! 1%nat = Some (usb_descriptor.bDescriptionType d)
    /\ drop 2 view = drop 2 (usb_descriptor.m_data d)
    /\ usb_descriptor.bLength d' = usb_descriptor.bLength d
    /\ usb_descriptor.bDescriptionType d' = usb_descriptor.bDescriptionType d.
Proof.
  intros Hlen. unfold usb_descriptor.pack.
  rewrite decide_True by exact Hlen.
  eexists _, _. split; [reflexivity |].
  destruct d as [ty len buf]. cbn [usb_descriptor.m_data
    usb_descriptor.bLength usb_descriptor.bDescriptionType] in *.
  destruct buf as [| b0 [| b1 rest]]; cbn in Hlen; try lia.
  repeat split.
Qed.

Lemma usb_descriptor_pack_stamps_header_witness :
  exists (d' : usb_descriptor.t) (view : span),
    usb_descriptor.pack more_samples.sample_descriptor = Some (d', view)
    /\ view !! 0%nat = Some 18
    /\ view !! 1%nat = Some 3
    /\ drop 2 view = drop 2 more_samples.marked_buffer.
Proof.
  destruct (usb_descriptor_pack_stamps_header more_samples.sample_descriptor)
    as (d' & view & Hpack & _ & _ & H0 & H1 & Hrest & _).
  - cbn. lia.
  - exists d', view. repeat split; assumption.
Defined.

(** X2: packing is idempotent: packing the object a successful [pack] left
    behind succeeds again and returns the same bytes, leaving the same
    object. *)
Theorem usb_descriptor_pack_idempotent (d d' : usb_descriptor.t)
    (view : span) :
  usb_descriptor.pack d = Some (d', view) ->
  usb_descriptor.pack d' = Some (d', view).
Proof.
  unfold usb_descriptor.pack.
  destruct (decide (2 <= length (usb_descriptor.m_data d))%nat)
    as [Hlen | Hshort]; [| discriminate].
  intros Heq. injection Heq as <- <-.
  cbn [usb_descriptor.m_data usb_descriptor.bLength
       usb_descriptor.bDescriptionType].
  rewrite decide_True by (rewrite !length_insert; exact Hlen).
  destruct d as [ty len buf]. cbn [usb_descriptor.m_data
    usb_descriptor.bLength usb_descriptor.bDescriptionType] in *.
  destruct buf as [| b0 [| b1 rest]]; cbn in Hlen; try lia.
  reflexivity.
Qed.

Lemma usb_descriptor_pack_idempotent_witness :
  usb_descriptor.pack
    {| usb_descriptor.bDescriptionType := 3;
       usb_descriptor.bLength := 18;
       usb_descriptor.m_data := 18 :: 3 :: drop 2 more_samples.marked_buffer |}
  = Some ({| usb_descriptor.bDescriptionType := 3;
             usb_descriptor.bLength := 18;
             usb_descriptor.m_data :=
               18 :: 3 :: drop 2 more_samples.marked_buffer |},
          18 :: 3 :: drop 2 more_samples.marked_buffer).
Proof.
  apply (usb_descriptor_pack_idempotent more_samples.sample_descriptor).
  reflexivity.
Defined.

(** ** [device_descriptor] through [injector::pack] *)

(** X3: packing a device descriptor built on a buffer of at least two bytes
    returns that buffer with 18 and the DEVICE type code in its first two
    bytes and every later byte as the caller left it: none of the descriptor
    fields given to the constructor reaches the buffer. *)
Theorem device_descriptor_pack_header_only
    (unset : Z) (buf : list Z)
    (usb cls sub proto vid pid dev iman iprod iser ncfg : Z) :
  (2 <= length buf)%nat ->
  exists d' : device_descriptor.t,
    injector.pack
      (device_descriptor.ctor unset buf
         usb cls sub proto vid pid dev iman iprod iser ncfg)
    = Some (d', 18 :: 1 :: drop 2 buf)
    /\ usb_descriptor.m_data (device_descriptor.dd_base d')
       = 18 :: 1 :: drop 2 buf.
Proof.
  intros Hlen. unfold injector.pack.
  cbn [injector.base injector.set_base injector.descriptor_pack
       device_descriptor.device_descriptor_derived
       device_descriptor.ctor device_descriptor.dd_base].
  unfold usb_descriptor.pack, usb_descriptor.ctor.
  cbn [usb_descriptor.m_data usb_descriptor.bLength
       usb_descriptor.bDescriptionType].
  rewrite decide_True by exact Hlen.
  destruct buf as [| b0 [| b1 rest]]; cbn in Hlen; try lia.
  eexists. split; reflexivity.
Qed.

Lemma device_descriptor_pack_header_only_witness :
  exists d' : device_descriptor.t,
    injector.pack more_samples.sample_device
    = Some (d', [18; 1; 0xE2; 0xE3; 0xE4; 0xE5; 0xE6; 0xE7; 0xE8;
                 0xE9; 0xEA; 0xEB; 0xEC; 0xED; 0xEE; 0xEF; 0xF0; 0xF1]).
Proof.
  destruct (device_descriptor_pack_header_only 64 more_samples.marked_buffer
              0x0200 0xEF 2 1 0x1209 0x0001 0x0100 1 2 3 1)
    as (d' & Hpack & _).
  - cbn. lia.
  - exists d'. exact Hpack.
Defined.

(** ** The enumerations *)

(** X4: the wire value of a class code is a byte and identifies the class:
    two class codes have the same value only if they are the same. *)
Theorem class_code_u8_injective (a b : usb_class_code) :
  is_u8 (class_code_u8 a)
  /\ (class_code_u8 a =? class_code_u8 b) = bool_decide (a = b).
Proof.
  split.
  - unfold is_u8. destruct a; cbn; lia.
  - destruct a, b; reflexivity.
Qed.

(** X5: the wire value of a descriptor type is a byte and identifies the
    type. *)
Theorem descriptor_type_u8_injective (a b : descriptor_type) :
  is_u8 (descriptor_type_u8 a)
  /\ (descriptor_type_u8 a = descriptor_type_u8 b <-> a = b).
Proof.
  split.
  - unfold is_u8. destruct a; cbn; lia.
  - split; [| intros ->; reflexivity].
    destruct a, b; cbn; intros Heq; first [reflexivity | discriminate Heq].
Qed.

(** ** [usb_interface]: lookups *)

(** X6: [get_interface_setting] never changes the object or the control
    endpoint; it throws [argument_out_of_domain] exactly when no entry of
    the registry has the index, and a setting it returns is an entry of the
    registry under that index. *)
Theorem get_interface_setting_reads_only (st : usb_interface.state) (k : Z) :
  (usb_interface.get_interface_setting k st).2 = st
  /\ ((usb_interface.get_interface_setting k st).1
      = Throw argument_out_of_domain
      <-> k ∉ (usb_interface.m_settings (usb_interface.self st)).*1)
  /\ (forall s : usb_interface.interface_settings,
        (usb_interface.get_interface_setting k st).1 = Ok s ->
        (k, s) ∈ usb_interface.m_settings (usb_interface.self st)).
Proof.
  unfold usb_interface.get_interface_setting.
  destruct (usb_interface.find_setting
              (usb_interface.m_settings (usb_interface.self st)) k)
    as [s |] eqn:Hfind; cbn.
  - split; [reflexivity |]. split.
    + split; [discriminate |]. intros Hnot.
      rewrite (find_setting_absent _ _ Hnot) in Hfind. discriminate.
    + intros s' [= <-]. apply find_setting_elem, Hfind.
  - split; [reflexivity |]. split.
    + split; [| reflexivity]. intros _ Hin.
      destruct (find_setting_present _ _ Hin) as [s Hs]. congruence.
    + intros s' Hs'. discriminate.
Qed.

Lemma find_setting_first (pre post : list (Z * usb_interface.interface_settings))
    (k : Z) (s : usb_interface.interface_settings) :
  k ∉ pre.*1 ->
  usb_interface.find_setting (pre ++ (k, s) :: post) k = Some s.
Proof.
  induction pre as [| [k' s'] pre IH]; intros Hnot; cbn.
  - rewrite Z.eqb_refl. reflexivity.
  - cbn in Hnot. apply not_elem_of_cons in Hnot as [Hne Hnot].
    destruct (Z.eqb_spec k' k) as [-> | _]; [contradiction |].
    apply IH, Hnot.
Qed.

(** [set_setting] on a found setting, in closed form. *)
Lemma set_setting_showing (st : usb_interface.state) (k : Z)
    (s : usb_interface.interface_settings) :
  usb_interface.find_setting
    (usb_interface.m_settings (usb_interface.self st)) k = Some s ->
  usb_interface.set_setting k st = (Ok tt, interface_showing st k s).
Proof.
  intros Hfind. rewrite (set_setting_found st k s Hfind).
  unfold interface_showing.
  destruct st as [[d l sel] ep].
  cbn [usb_interface.self usb_interface.m_packed_data
       usb_interface.m_settings usb_interface.ctrl_endpoint].
  inv_vec d; intros d0 d1 d2 d3 d4 d5 d6 d7 d8. reflexivity.
Qed.

Lemma set_setting_ok_inv (st st' : usb_interface.state) (k : Z) :
  usb_interface.set_setting k st = (Ok tt, st') ->
  exists s : usb_interface.interface_settings,
    usb_interface.find_setting
      (usb_interface.m_settings (usb_interface.self st)) k = Some s
    /\ st' = interface_showing st k s.
Proof.
  destruct (usb_interface.find_setting
              (usb_interface.m_settings (usb_interface.self st)) k)
    as [s |] eqn:Hfind.
  - rewrite (set_setting_showing st k s Hfind). intros Heq.
    apply pair_equal_spec in Heq as [_ <-]. exists s. split; reflexivity.
  - rewrite (set_setting_missing st k Hfind). intros Heq.
    apply pair_equal_spec in Heq as [Hthrow _]. discriminate.
Qed.

Lemma interface_showing_twice (st : usb_interface.state) (a b : Z)
    (sa sb : usb_interface.interface_settings) :
  interface_showing (interface_showing st a sa) b sb
  = interface_showing st b sb.
Proof. reflexivity. Qed.

(** X7: when an index occurs more than once in the registry, the first
    entry is the one [get_interface_setting] returns and [set_setting] packs;
    the entries after it are not consulted. *)
Theorem first_entry_shadows_later_ones (st : usb_interface.state)
    (pre post : list (Z * usb_interface.interface_settings)) (k : Z)
    (s : usb_interface.interface_settings) :
  usb_interface.m_settings (usb_interface.self st) = pre ++ (k, s) :: post ->
  k ∉ pre.*1 ->
  usb_interface.get_interface_setting k st = (Ok s, st)
  /\ usb_interface.set_setting k st = (Ok tt, interface_showing st k s).
Proof.
  intros Hsplit Hnot.
  assert (Hfind : usb_interface.find_setting
                    (usb_interface.m_settings (usb_interface.self st)) k
                  = Some s)
    by (rewrite Hsplit; apply find_setting_first, Hnot).
  split.
  - unfold usb_interface.get_interface_setting. rewrite Hfind. reflexivity.
  - apply set_setting_showing, Hfind.
Qed.

Lemma first_entry_shadows_later_ones_witness :
  usb_interface.set_setting 1 more_samples.constructed_repeated
  = (Ok tt,
     {| usb_interface.self :=
          {| usb_interface.m_packed_data := [# 9; 4; 3; 0; 1; 10; 0; 0; 5];
             usb_interface.m_settings := more_samples.repeated_key;
             usb_interface.m_selected_setting_number := 1 |};
        usb_interface.ctrl_endpoint := samples.idle_endpoint |}).
Proof.
  destruct (first_entry_shadows_later_ones more_samples.constructed_repeated
              [(0, samples.hid_setting)] [(1, more_samples.vendor_setting)]
              1 samples.cdc_setting eq_refl) as [_ Hset].
  - intros Hin. apply list_elem_of_In in Hin.
    destruct Hin as [H0 | []]. discriminate.
  - exact Hset.
Defined.

(** ** [usb_interface]: how [set_setting] calls compose *)



Lemma set_settings_keeps_registry (ks : list Z)
    (st st' : usb_interface.state) (r : result unit) :
  usb_interface.set_settings ks st = (r, st') ->
  usb_interface.m_settings (usb_interface.self st')
  = usb_interface.m_settings (usb_interface.self st).
Proof.
  revert st. induction ks as [| k ks IH]; intros st.
  - intros Heq. apply pair_equal_spec in Heq as [_ <-]. reflexivity.
  - cbn [usb_interface.set_settings]. unfold usb_interface.bind.
    destruct (usb_interface.set_setting k st) as [[[] | e] st1] eqn:Hstep.
    + intros Hrest. rewrite (IH st1 Hrest).
      apply (set_setting_frame st st1 k (Ok tt) Hstep).
    + intros Heq. apply pair_equal_spec in Heq as [_ <-].
      apply (set_setting_frame st st1 k (Throw e) Hstep).
Qed.

Lemma set_settings_app (ks1 ks2 : list Z) (st : usb_interface.state) :
  usb_interface.set_settings (ks1 ++ ks2) st
  = usb_interface.bind (usb_interface.set_settings ks1)
      (fun _ => usb_interface.set_settings ks2) st.
Proof.
  revert st. induction ks1 as [| k ks1 IH]; intros st; [reflexivity |].
  cbn [app usb_interface.set_settings]. unfold usb_interface.bind.
  destruct (usb_interface.set_setting k st) as [[[] | e] st1]; [| reflexivity].
  rewrite IH. reflexivity.
Qed.

(** X9: a run of [set_setting] calls goes through without a throw exactly
    when every requested index is in the registry. *)
Theorem set_settings_succeeds_iff_present (ks : list Z)
    (st : usb_interface.state) :
  (exists st' : usb_interface.state,
     usb_interface.set_settings ks st = (Ok tt, st'))
  <-> Forall
        (fun k => k ∈ (usb_interface.m_settings (usb_interface.self st)).*1)
        ks.
Proof.
  revert st. induction ks as [| k ks IH]; intros st.
  - split; [intros _; constructor | intros _; exists st; reflexivity].
  - cbn [usb_interface.set_settings]. unfold usb_interface.bind.
    destruct (usb_interface.find_setting
                (usb_interface.m_settings (usb_interface.self st)) k)
      as [s |] eqn:Hfind.
    + rewrite (set_setting_showing st k s Hfind).
      rewrite (IH (interface_showing st k s)).
      cbn [interface_showing usb_interface.self usb_interface.m_settings].
      split.
      * intros Hall. constructor; [| exact Hall].
        apply list_elem_of_fmap. exists (k, s).
        split; [reflexivity | apply find_setting_elem, Hfind].
      * intros Hall. inversion Hall as [| ? ? _ Hrest]. exact Hrest.
    + rewrite (set_setting_missing st k Hfind). split.
      * intros [st' Heq]. discriminate.
      * intros Hall. inversion Hall as [| ? ? Hin _].
        destruct (find_setting_present _ _ Hin) as [s Hs]. congruence.
Qed.

(** X10: a run stops at the first index that is not in the registry: the
    run throws [argument_out_of_domain], the calls after it are not made,
    and the state is the one the preceding successful calls left. *)
Theorem set_settings_stops_at_missing (ks1 ks2 : list Z) (k : Z)
    (st st1 : usb_interface.state) :
  usb_interface.set_settings ks1 st = (Ok tt, st1) ->
  k ∉ (usb_interface.m_settings (usb_interface.self st)).*1 ->
  usb_interface.set_settings (ks1 ++ k :: ks2) st
  = (Throw argument_out_of_domain, st1).
Proof.
  intros Hrun Hnot. rewrite set_settings_app.
  unfold usb_interface.bind at 1. rewrite Hrun.
  cbn [usb_interface.set_settings]. unfold usb_interface.bind.
  rewrite (set_setting_missing st1 k); [reflexivity |].
  apply find_setting_absent.
  rewrite (set_settings_keeps_registry ks1 st st1 (Ok tt) Hrun). exact Hnot.
Qed.

Lemma set_settings_stops_at_missing_witness :
  usb_interface.set_settings [1; 7; 0] samples.constructed
  = (Throw argument_out_of_domain, samples.switched).
Proof.
  apply (set_settings_stops_at_missing [1] [0] 7
           samples.constructed samples.switched).
  - reflexivity.
  - intros Hin. apply list_elem_of_In in Hin.
    destruct Hin as [H0 | [H1 | []]]; discriminate.
Defined.

(** ** [usb_interface]: the states an interface can be in *)

Lemma set_settings_shape (ks : list Z) (d : Z)
    (st st' : usb_interface.state) :
  usb_interface.set_settings ks st = (Ok tt, st') ->
  ks <> [] ->
  exists s : usb_interface.interface_settings,
    usb_interface.find_setting
      (usb_interface.m_settings (usb_interface.self st)) (List.last ks d)
    = Some s
    /\ st' = interface_showing st (List.last ks d) s.
Proof.
  revert st. induction ks as [| k ks IH]; intros st Hrun Hne; [contradiction |].
  cbn [usb_interface.set_settings] in Hrun. unfold usb_interface.bind in Hrun.
  destruct (usb_interface.set_setting k st) as [[[] | e] st1] eqn:Hstep.
  - destruct (set_setting_ok_inv st st1 k Hstep) as (sk & Hfind & ->).
    destruct ks as [| k' ks'].
    + apply pair_equal_spec in Hrun as [_ <-]. exists sk. split; [exact Hfind |].
      reflexivity.
    + change (List.last (k :: k' :: ks') d) with (List.last (k' :: ks') d).
      destruct (IH _ Hrun) as (s & Hs & ->); [discriminate |].
      exists s. split; [exact Hs | apply interface_showing_twice].
  - apply pair_equal_spec in Hrun as [Hthrow _]. discriminate.
Qed.

(** The shape of every state reached by a successful construction followed
    by successful [set_setting] calls. *)
Lemma reachable_state_shape (uninit : vec Z 9) (usel n : Z)
    (ep ep0 : usb_control_endpoint)
    (settings : list (Z * usb_interface.interface_settings))
    (ks : list Z) (i0 : usb_interface.t) (st' : usb_interface.state) :
  usb_interface.ctor uninit usel n ep settings = (Ok i0, ep0) ->
  usb_interface.set_settings ks
    {| usb_interface.self := i0; usb_interface.ctrl_endpoint := ep0 |}
  = (Ok tt, st') ->
  exists s : usb_interface.interface_settings,
    usb_interface.find_setting settings (List.last ks 0) = Some s
    /\ st' = {| usb_interface.self :=
                  {| usb_interface.m_packed_data :=
                       [# 9; 4; n; 0;
                          usb_interface.m_num_endpoints s;
                          class_code_u8 (usb_interface.m_class s);
                          usb_interface.m_subclass s;
                          usb_interface.m_protocol s;
                          usb_interface.m_str_name_idx s ];
                     usb_interface.m_settings := settings;
                     usb_interface.m_selected_setting_number :=
                       List.last ks 0 |};
                usb_interface.ctrl_endpoint := ep |}.
Proof.
  intros Hctor Hrun.
  destruct (usb_interface.find_setting settings 0) as [s0 |] eqn:Hfind0.
  - rewrite (interface_ctor_found uninit usel n ep settings s0 Hfind0) in Hctor.
    apply pair_equal_spec in Hctor as [Hobj <-].
    injection Hobj as <-.
    destruct ks as [| k ks'].
    + apply pair_equal_spec in Hrun as [_ <-].
      exists s0. split; [exact Hfind0 | reflexivity].
    + destruct (set_settings_shape (k :: ks') 0 _ st' Hrun) as (s & Hs & ->);
        [discriminate |].
      exists s. split; [exact Hs | reflexivity].
  - rewrite (interface_ctor_missing uninit usel n ep settings Hfind0) in Hctor.
    apply pair_equal_spec in Hctor as [Hthrow _]. discriminate.
Qed.

(** X11: the state of an interface does not depend on its history: after a
    successful construction and any run of successful [set_setting] calls,
    the header is 9, the INTERFACE type code, the interface number, 0 and
    the five fields of the setting registered under the index
    [get_selected_setting_number()] returns; the registry and the control
    endpoint are those given at construction. *)
Theorem interface_state_history_independent (uninit : vec Z 9) (usel n : Z)
    (ep ep0 : usb_control_endpoint)
    (settings : list (Z * usb_interface.interface_settings))
    (ks : list Z) (i0 : usb_interface.t) (st' : usb_interface.state) :
  usb_interface.ctor uninit usel n ep settings = (Ok i0, ep0) ->
  usb_interface.set_settings ks
    {| usb_interface.self := i0; usb_interface.ctrl_endpoint := ep0 |}
  = (Ok tt, st') ->
  exists s : usb_interface.interface_settings,
    usb_interface.find_setting settings
      (usb_interface.get_selected_setting_number (usb_interface.self st'))
    = Some s
    /\ usb_interface.m_packed_data (usb_interface.self st')
       = [# 9; descriptor_type_u8 INTERFACE; n; 0;
            usb_interface.m_num_endpoints s;
            class_code_u8 (usb_interface.m_class s);
            usb_interface.m_subclass s;
            usb_interface.m_protocol s;
            usb_interface.m_str_name_idx s ]
    /\ usb_interface.m_settings (usb_interface.self st') = settings
    /\ usb_interface.ctrl_endpoint st' = ep.
Proof.
  intros Hctor Hrun.
  destruct (reachable_state_shape uninit usel n ep ep0 settings ks i0 st'
              Hctor Hrun) as (s & Hs & ->).
  exists s. repeat split. exact Hs.
Qed.

Lemma interface_state_history_independent_witness :
  exists s : usb_interface.interface_settings,
    usb_interface.find_setting samples.two_settings 1 = Some s
    /\ usb_interface.m_packed_data (usb_interface.self samples.switched)
       = [# 9; 4; 3; 0;
            usb_interface.m_num_endpoints s;
            class_code_u8 (usb_interface.m_class s);
            usb_interface.m_subclass s;
            usb_interface.m_protocol s;
            usb_interface.m_str_name_idx s ].
Proof.
  destruct (interface_state_history_independent
              samples.stale 77 3 samples.idle_endpoint samples.idle_endpoint
              samples.two_settings [0; 1; 0; 1]
              (usb_interface.self samples.constructed) samples.switched)
    as (s & Hs & Hdata & _).
  - reflexivity.
  - reflexivity.
  - exists s. split; [exact Hs | exact Hdata].
Defined.

Lemma checked_class_byte (n : Z) (c : usb_class_code) (sub proto idx : Z)
    (s : usb_interface.interface_settings) :
  usb_interface.interface_settings_ctor n c sub proto idx = Ok s ->
  class_code_u8 (usb_interface.m_class s) <> 0x00
  /\ class_code_u8 (usb_interface.m_class s) <> 0x09
  /\ class_code_u8 (usb_interface.m_class s) <> 0x11.
Proof.
  unfold usb_interface.interface_settings_ctor.
  destruct c; cbn; intros Heq; try discriminate Heq;
    injection Heq as <-; cbn; repeat split; discriminate.
Qed.

(** X12: if every setting of the registry was produced by the
    [interface_settings] constructor, then in every state reached by a
    successful construction and successful [set_setting] calls the
    [bInterfaceClass] byte of the header (offset 5) is none of 0x00, 0x09
    and 0x11, the values of the three rejected class codes. *)
Theorem interface_class_byte_never_rejected (uninit : vec Z 9) (usel n : Z)
    (ep ep0 : usb_control_endpoint)
    (settings : list (Z * usb_interface.interface_settings))
    (ks : list Z) (i0 : usb_interface.t) (st' : usb_interface.state) :
  Forall
    (fun p : Z * usb_interface.interface_settings =>
       exists (ne : Z) (c : usb_class_code) (sub proto idx : Z),
         usb_interface.interface_settings_ctor ne c sub proto idx = Ok p.2)
    settings ->
  usb_interface.ctor uninit usel n ep settings = (Ok i0, ep0) ->
  usb_interface.set_settings ks
    {| usb_interface.self := i0; usb_interface.ctrl_endpoint := ep0 |}
  = (Ok tt, st') ->
  usb_interface.m_packed_data (usb_interface.self st') !!! 5%fin
  <> class_code_u8 USE_INTERFACE_DESCRIPTOR
  /\ usb_interface.m_packed_data (usb_interface.self st') !!! 5%fin
     <> class_code_u8 HUB
  /\ usb_interface.m_packed_data (usb_interface.self st') !!! 5%fin
     <> class_code_u8 BILLBOARD.
Proof.
  intros Hchecked Hctor Hrun.
  destruct (reachable_state_shape uninit usel n ep ep0 settings ks i0 st'
              Hctor Hrun) as (s & Hs & ->).
  apply find_setting_elem, list_elem_of_In in Hs.
  rewrite List.Forall_forall in Hchecked.
  destruct (Hchecked _ Hs) as (ne & c & sub & proto & idx & Hbuilt).
  apply (checked_class_byte ne c sub proto idx s Hbuilt).
Qed.

Lemma interface_class_byte_never_rejected_witness :
  usb_interface.m_packed_data (usb_interface.self samples.switched) !!! 5%fin
  <> class_code_u8 USE_INTERFACE_DESCRIPTOR
  /\ usb_interface.m_packed_data (usb_interface.self samples.switched) !!! 5%fin
     <> class_code_u8 HUB
  /\ usb_interface.m_packed_data (usb_interface.self samples.switched) !!! 5%fin
     <> class_code_u8 BILLBOARD.
Proof.
  apply (interface_class_byte_never_rejected
           samples.stale 77 3 samples.idle_endpoint samples.idle_endpoint
           samples.two_settings [1]
           (usb_interface.self samples.constructed) samples.switched).
  - constructor; [exists 2, HID, 1, 1, 4; reflexivity |].
    constructor; [exists 1, CDC_DATA, 0, 0, 5; reflexivity |].
    constructor.
  - reflexivity.
  - reflexivity.
Defined.

Lemma class_code_u8_byte (c : usb_class_code) : is_u8 (class_code_u8 c).
Proof. unfold is_u8. destruct c; cbn; lia. Qed.

(** X13: if the interface number is a byte and every field of every
    registered setting is a byte, then all nine header bytes are bytes in
    every state reached by a successful construction and successful
    [set_setting] calls, whatever the storage held before construction. *)
Theorem interface_header_is_bytes (uninit : vec Z 9) (usel n : Z)
    (ep ep0 : usb_control_endpoint)
    (settings : list (Z * usb_interface.interface_settings))
    (ks : list Z) (i0 : usb_interface.t) (st' : usb_interface.state) :
  is_u8 n ->
  Forall (fun p : Z * usb_interface.interface_settings => setting_is_bytes p.2)
    settings ->
  usb_interface.ctor uninit usel n ep settings = (Ok i0, ep0) ->
  usb_interface.set_settings ks
    {| usb_interface.self := i0; usb_interface.ctrl_endpoint := ep0 |}
  = (Ok tt, st') ->
  Forall is_u8
    (vec_to_list (usb_interface.m_packed_data (usb_interface.self st'))).
Proof.
  intros Hn Hbytes Hctor Hrun.
  destruct (reachable_state_shape uninit usel n ep ep0 settings ks i0 st'
              Hctor Hrun) as (s & Hs & ->).
  apply find_setting_elem, list_elem_of_In in Hs.
  rewrite List.Forall_forall in Hbytes.
  destruct (Hbytes _ Hs) as (He & Hsub & Hproto & Hidx).
  cbn [usb_interface.self usb_interface.m_packed_data vec_to_list].
  repeat (constructor; [first [assumption | apply class_code_u8_byte
                              | unfold is_u8; lia] |]).
  constructor.
Qed.

Lemma interface_header_is_bytes_witness :
  Forall is_u8
    (vec_to_list
       (usb_interface.m_packed_data (usb_interface.self samples.switched))).
Proof.
  apply (interface_header_is_bytes
           samples.stale 77 3 samples.idle_endpoint samples.idle_endpoint
           samples.two_settings [1]
           (usb_interface.self samples.constructed) samples.switched).
  - unfold is_u8. lia.
  - repeat constructor; cbn; lia.
  - reflexivity.
  - reflexivity.
Defined.

(** ** [usb_configuration]: the remaining header fields *)

(** X14: [get_interface_count()] after construction is the number of
    interface pointers reduced modulo 256, the width of header byte 4: it is
    the number itself for fewer than 256 pointers, and 0 for exactly 256. *)
Theorem get_interface_count_after_construction
    {obj} `{usb_interface.virtuals obj}
    (uninit : vec Z 9) (heap : usb_configuration.ptr -> obj)
    (ifaces : list usb_configuration.ptr) (p : usb_configuration.ptr)
    (sp rw : bool) (mp : Z) :
  usb_configuration.get_interface_count
    (usb_configuration.ctor uninit heap ifaces sp rw mp)
  = Z.of_nat (length ifaces) mod 256
  /\ ((length ifaces < 256)%nat ->
      usb_configuration.get_interface_count
        (usb_configuration.ctor uninit heap ifaces sp rw mp)
      = Z.of_nat (length ifaces))
  /\ usb_configuration.get_interface_count
       (usb_configuration.ctor uninit heap (replicate 256 p) sp rw mp)
     = 0.
Proof.
  unfold usb_configuration.get_interface_count.
  rewrite !configuration_header.
  change ([# ?b0; ?b1; ?b2; ?b3; ?b4; ?b5; ?b6; ?b7; ?b8] !!! 4%fin) with b4.
  split; [reflexivity |]. split.
  - intros Hlt. apply to_u8_id. unfold is_u8. lia.
  - rewrite length_replicate. reflexivity.
Qed.

Lemma get_interface_count_after_construction_witness :
  usb_configuration.get_interface_count
    (usb_configuration.ctor samples.stale samples.small_heap [0%nat; 1%nat]
       true false 50)
  = 2.
Proof.
  refine (proj1 (proj2 (get_interface_count_after_construction
                          samples.stale samples.small_heap [0%nat; 1%nat]
                          0%nat true false 50)) _).
  cbn. lia.
Defined.

(** X15: [get_total_length()] always returns a 16-bit value, and on a header
    whose bytes 2 and 3 are bytes it is their little-endian reading,
    [byte2 + 256 * byte3]. *)
Theorem get_total_length_little_endian (c : usb_configuration.t) :
  is_u16 (usb_configuration.get_total_length c)
  /\ (is_u8 (usb_configuration.m_packed_data c !!! 2%fin) ->
      is_u8 (usb_configuration.m_packed_data c !!! 3%fin) ->
      usb_configuration.get_total_length c
      = usb_configuration.m_packed_data c !!! 2%fin
        + 256 * usb_configuration.m_packed_data c !!! 3%fin).
Proof.
  unfold usb_configuration.get_total_length.
  split; [apply to_u16_range |].
  generalize (usb_configuration.m_packed_data c !!! 2%fin) as lo.
  generalize (usb_configuration.m_packed_data c !!! 3%fin) as hi.
  unfold is_u8. intros hi lo Hlo Hhi.
  rewrite (to_u16_id lo) by (unfold is_u16; lia).
  rewrite (to_u16_id (Z.shiftl hi 8)).
  - rewrite lor_high_low by (unfold is_u8; lia).
    rewrite to_u16_id by (unfold is_u16; lia). lia.
  - rewrite Z.shiftl_mul_pow2 by lia. change (2 ^ 8) with 256.
    unfold is_u16. lia.
Qed.

Lemma get_total_length_little_endian_witness :
  usb_configuration.get_total_length
    {| usb_configuration.m_ifaces := [];
       usb_configuration.m_packed_data := [# 9; 2; 0x34; 0x12; 0; 0; 0; 0x80; 0] |}
  = 0x34 + 256 * 0x12.
Proof.
  refine (proj2 (get_total_length_little_endian
                   {| usb_configuration.m_ifaces := [];
                      usb_configuration.m_packed_data :=
                        [# 9; 2; 0x34; 0x12; 0; 0; 0; 0x80; 0] |}) _ _);
    unfold is_u8; cbn; lia.
Defined.

(** X16: a configuration built from no interface at all has total length 9
    and interface count 0, and writing it out calls the callback once, with
    the 9 header bytes. *)
Theorem empty_configuration {obj} `{usb_interface.virtuals obj}
    (uninit : vec Z 9) (heap heap' : usb_configuration.ptr -> obj)
    (sp rw : bool) (mp : Z) :
  let c := usb_configuration.ctor uninit heap [] sp rw mp in
  usb_configuration.get_total_length c = 9
  /\ usb_configuration.get_interface_count c = 0
  /\ usb_configuration.write_descriptors heap' c record_push []
     = [vec_to_list (usb_configuration.m_packed_data c)]
  /\ pushed_bytes (usb_configuration.write_descriptors heap' c record_push [])
     = 9.
Proof.
  intros c. subst c. split; [| split; [| split]].
  - rewrite get_total_length_mod. reflexivity.
  - unfold usb_configuration.get_interface_count.
    rewrite configuration_header. reflexivity.
  - reflexivity.
  - cbn [usb_configuration.write_descriptors usb_configuration.m_ifaces
         usb_configuration.ctor fold_left].
    unfold usb_configuration.write_descriptors. cbn [fold_left
      usb_configuration.m_ifaces usb_configuration.ctor].
    unfold record_push. cbn [app]. rewrite pushed_bytes_cons.
    rewrite length_vec_to_list. reflexivity.
Qed.

(** X17: if the byte given as max power and the two bytes the constructor
    does not assign are bytes, the whole header of a constructed
    configuration consists of bytes, starting with 9 and the CONFIGURATION
    type code. *)
Theorem configuration_header_is_bytes {obj} `{usb_interface.virtuals obj}
    (uninit : vec Z 9) (heap : usb_configuration.ptr -> obj)
    (ifaces : list usb_configuration.ptr) (sp rw : bool) (mp : Z) :
  is_u8 mp ->
  is_u8 (uninit !!! 5%fin) ->
  is_u8 (uninit !!! 6%fin) ->
  let header :=
    vec_to_list
      (usb_configuration.m_packed_data
         (usb_configuration.ctor uninit heap ifaces sp rw mp)) in
  Forall is_u8 header
  /\ header !! 0%nat = Some 9
  /\ header !! 1%nat = Some (descriptor_type_u8 CONFIGURATION).
Proof.
  intros Hmp H5 H6 header. subst header.
  rewrite configuration_header, pack_u16_le_bytes, pair_first, pair_second.
  split; [| split; reflexivity].
  cbn [vec_to_list].
  repeat (constructor;
          [first [assumption | apply to_u8_range
                 | unfold is_u8; destruct sp, rw; cbn; lia] |]).
  constructor.
Qed.

Lemma configuration_header_is_bytes_witness :
  Forall is_u8
    (vec_to_list
       (usb_configuration.m_packed_data
          (usb_configuration.ctor samples.stale samples.small_heap
             [0%nat; 1%nat] true false 50))).
Proof.
  refine (proj1 (configuration_header_is_bytes
                   samples.stale samples.small_heap [0%nat; 1%nat]
                   true false 50 _ _ _)); unfold is_u8; cbn; lia.
Defined.

(** ** [usb_configuration]: the callback *)


